(** * image_server.py: a shallow embedding of [ImageServer]

    The class publishes the latest camera frame over HTTP.  The embedding
    follows the Python text of [src/image_server.py]:

    - Python values that the class stores or formats are [PyVal];
    - the object [self] is the record [ImageServer], with the attributes of
      [__init__] under their source names;
    - statements run in the monad [M]: a state monad over [World] whose
      answers are [Ok v] or [Raise e], so that an exception leaves the
      mutations made before it in place, as in Python;
    - everything the class does to the outside (logging, [time.sleep], the
      codec, starting the thread, the HTTP POST of [stop]) is recorded, in
      order, in the [trace] of the world;
    - builtins and collaborators whose code is not part of the class
      ([float], [str] on floats, [utils.encode_image], [open]/[read]) are
      variables of the section.

    The lock [__current_image_lock] only brackets the reads and writes of
    [__current_image]; the model is sequential (one call runs to its end
    before the next starts), so the lock has no counterpart here. *)

From Stdlib Require Import String Ascii List ZArith Bool Lia Floats.
From Stdlib Require Import DecimalString.
Import ListNotations.
Local Open Scope string_scope.
Local Open Scope list_scope.

(** ** Python values and strings *)

Inductive PyVal : Type :=
| PyNone
| PyInt (z : Z)
| PyFloat (f : float)
| PyStr (s : string).

(** An exception object: its class and [str(e)]. *)
Record PyExn : Type := mkExn { exn_class : string; exn_str : string }.

Definition ValueError (msg : string) : PyExn := mkExn "ValueError" msg.
Definition ConnectionError (msg : string) : PyExn := mkExn "ConnectionError" msg.
Definition FileNotFoundError (msg : string) : PyExn := mkExn "FileNotFoundError" msg.

(** [str(z)] for an int. *)
Definition str_int (z : Z) : string := NilZero.string_of_int (Z.to_int z).

(** [s.split(sep)] for a one-character separator: the pieces between the
    occurrences of [sep], so a string with n separators gives n+1 pieces. *)
Fixpoint split (sep : ascii) (s : string) : list string :=
  match s with
  | EmptyString => [EmptyString]
  | String c rest =>
      if Ascii.eqb c sep then EmptyString :: split sep rest
      else match split sep rest with
           | piece :: pieces => String c piece :: pieces
           | [] => [String c EmptyString]
           end
  end.

(** [s.startswith(p)]. *)
Fixpoint startswith (p s : string) : bool :=
  match p, s with
  | EmptyString, _ => true
  | String a p', String b s' => Ascii.eqb a b && startswith p' s'
  | String _ _, EmptyString => false
  end.

(** [s.replace(old, new)]: every occurrence of [old], left to right and
    without overlap.  [skip] counts the characters of a match that are
    still to be dropped.  With an empty [old], Python puts [new] before
    every character and at the end. *)
Fixpoint replace_from (skip : nat) (old new s : string) : string :=
  match s with
  | EmptyString =>
      match old with EmptyString => new | _ => EmptyString end
  | String c rest =>
      match skip with
      | S k => replace_from k old new rest
      | O =>
          match old with
          | EmptyString => new ++ String c (replace_from O old new rest)
          | String _ old' =>
              if startswith old s
              then new ++ replace_from (String.length old') old new rest
              else String c (replace_from O old new rest)
          end
      end
  end.

Definition replace (old new s : string) : string := replace_from O old new s.

(** ** Results, the world and the monad *)

Inductive Result (A : Type) : Type :=
| Ok (a : A)
| Raise (e : PyExn).
Arguments Ok {A} a.
Arguments Raise {A} e.

(** A frame as the class uses it: a numpy array, of which only [shape] is
    read here; the samples go to the codec untouched. *)
Record Frame : Type := mkFrame { shape : list Z; samples : list Z }.

(** What [_launch_flask] closes over besides [self]: the local variables
    [width] and [height] that [get_page] reads. *)
Record FlaskApp : Type := mkApp { width : Z; height : Z }.

(** [Thread(target=run_http, kwargs=...)]: the application and the
    address the loop was started with. *)
Record ServeThread : Type :=
  mkThread { flask_server : FlaskApp; thread_host : string; thread_port : PyVal }.

Inductive Event : Type :=
| LogError (msg : string)            (* logger.error(msg, ...) *)
| LogInfo (msg : string)             (* logger.info(msg) *)
| Sleep (secs : Z)                   (* time.sleep(secs) *)
| AddFilter (fname : string)         (* getLogger('werkzeug').addFilter(FlaskFilter(fname)) *)
| Encode (image : Frame)             (* utils.encode_image(image) *)
| OpenFile (path : string)           (* open(path) *)
| ThreadStart (t : ServeThread)      (* Thread(...).start() *)
| FlaskRun (host : string) (port : PyVal) (* flask_server.run(host=, port=) *)
| ShutdownFunc                       (* shutdown_func() *)
| Post (url : string).               (* requests.post(url) *)

(** The attributes of [self], as [__init__] creates them. *)
Record ImageServer : Type := mkServer {
  __camera_name : string;
  __http_host : string;
  __http_delay_secs : PyVal;
  __http_file : string;
  __host : string;
  __port : PyVal;
  __current_image : option Frame;
  __ready_to_stop : bool;
  __flask_launched : bool;
  started : bool;
  stopped : bool
}.

Record World : Type := mkWorld {
  self : ImageServer;
  threads : list ServeThread;   (* started threads, oldest first *)
  trace : list Event            (* effects so far, oldest first *)
}.

Definition M (A : Type) : Type := World -> Result A * World.

Definition ret {A} (a : A) : M A := fun w => (Ok a, w).
Definition raise {A} (e : PyExn) : M A := fun w => (Raise e, w).
Definition bind {A B} (m : M A) (k : A -> M B) : M B :=
  fun w => match m w with
           | (Ok a, w') => k a w'
           | (Raise e, w') => (Raise e, w')
           end.
(** [try: body  except BaseException as e: handler(e)]. *)
Definition try_except {A} (body : M A) (handler : PyExn -> M A) : M A :=
  fun w => match body w with
           | (Ok a, w') => (Ok a, w')
           | (Raise e, w') => handler e w'
           end.
(** A library call whose answer is already known: it returns or raises. *)
Definition lift {A} (r : Result A) : M A := fun w => (r, w).

Declare Scope py_scope.
Delimit Scope py_scope with py.
Notation "x <- m ;; k" := (bind m (fun x => k))
  (at level 61, m at next level, right associativity) : py_scope.
Notation "m ;; k" := (bind m (fun _ => k))
  (at level 61, right associativity) : py_scope.
Local Open Scope py_scope.

Definition get_self : M ImageServer := fun w => (Ok (self w), w).
Definition modify_self (f : ImageServer -> ImageServer) : M unit :=
  fun w => (Ok tt, mkWorld (f (self w)) (threads w) (trace w)).
Definition emit (e : Event) : M unit :=
  fun w => (Ok tt, mkWorld (self w) (threads w) (trace w ++ [e])).
Definition spawn (t : ServeThread) : M unit :=
  fun w => (Ok tt, mkWorld (self w) (threads w ++ [t]) (trace w ++ [ThreadStart t])).

(** Assignments to the attributes that change after [__init__]. *)
Definition set_current_image (v : option Frame) (s : ImageServer) : ImageServer :=
  mkServer (__camera_name s) (__http_host s) (__http_delay_secs s) (__http_file s)
           (__host s) (__port s) v (__ready_to_stop s) (__flask_launched s)
           (started s) (stopped s).
Definition set_ready_to_stop (v : bool) (s : ImageServer) : ImageServer :=
  mkServer (__camera_name s) (__http_host s) (__http_delay_secs s) (__http_file s)
           (__host s) (__port s) (__current_image s) v (__flask_launched s)
           (started s) (stopped s).
Definition set_flask_launched (v : bool) (s : ImageServer) : ImageServer :=
  mkServer (__camera_name s) (__http_host s) (__http_delay_secs s) (__http_file s)
           (__host s) (__port s) (__current_image s) (__ready_to_stop s) v
           (started s) (stopped s).
Definition set_started (v : bool) (s : ImageServer) : ImageServer :=
  mkServer (__camera_name s) (__http_host s) (__http_delay_secs s) (__http_file s)
           (__host s) (__port s) (__current_image s) (__ready_to_stop s)
           (__flask_launched s) v (stopped s).
Definition set_stopped (v : bool) (s : ImageServer) : ImageServer :=
  mkServer (__camera_name s) (__http_host s) (__http_delay_secs s) (__http_file s)
           (__host s) (__port s) (__current_image s) (__ready_to_stop s)
           (__flask_launched s) (started s) v.

(** The module constant [_image_fname]. *)
Definition _image_fname : string := "/image.jpg".

(** What a view function hands back to Flask. *)
Inductive ViewResult : Type :=
| Redirect (location : string)                        (* redirect(location) *)
| Text (body : string)                                (* a str *)
| NoneResult                                          (* the view fell off its end *)
| ImageResponse (body : list Byte.byte) (mimetype : string)
                (headers : list (string * string)).   (* werkzeug Response *)

(** The part of [request.environ] that [shutdown] reads: whether the key
    ['werkzeug.server.shutdown'] is there ([environ.get] gives [None]
    when it is not). *)
Record Environ : Type := mkEnviron { werkzeug_server_shutdown : bool }.

(** A request as Flask routes it to the views of [_launch_flask]. *)
Inductive Request : Type :=
| GET_root                                  (* GET /               -> index *)
| GET_image (delay_arg : option string)     (* GET /image[?delay=] -> image_option *)
| GET_image_path (delay : string)           (* GET /image/<delay>  -> image_path *)
| GET_image_jpg                             (* GET /image.jpg      -> image_jpg *)
| POST_shutdown (environ : Environ).        (* POST /__shutdown__  -> shutdown *)

(** What [requests.post] meets: an answer from whoever listens at the
    address (the request then carries [environ] into the view), or a
    failure that [requests] raises, such as [ConnectionError]. *)
Inductive PostOutcome : Type :=
| PostAnswered (environ : Environ)
| PostFails (e : PyExn).

(** One call of [flask_server.run]: the requests it serves, and how it
    ends ([None]: it returns; [Some e]: it raises [e]). *)
Record RunAttempt : Type :=
  mkAttempt { served : list Request; ending : option PyExn }.

Inductive LoopStatus : Type :=
| Exited      (* the [while] condition was false: [run_http] returned *)
| Serving.    (* the thread is inside [flask_server.run] *)

(** [p in s] for two strings: [p] occurs somewhere in [s]. *)
Fixpoint contains (p s : string) : bool :=
  match s with
  | EmptyString => startswith p EmptyString
  | String _ rest => startswith p s || contains p rest
  end.

(** The class [FlaskFilter] that [__init__] declares and installs on the
    logger ['werkzeug'] when [http_verbose] is false: its attribute
    [__fname], its [__init__] and its method [filter], which gets
    [record.msg]. *)
Record FlaskFilter : Type := mkFilter { __fname : string }.

Definition FlaskFilter__init__ (fname : string) : FlaskFilter :=
  mkFilter ("GET " ++ fname).

Definition FlaskFilter_filter (f : FlaskFilter) (record_msg : string) : bool :=
  negb (contains (__fname f) record_msg).

(** How often a trace asks the listener to run. *)
Definition is_run (e : Event) : bool :=
  match e with FlaskRun _ _ => true | _ => false end.
Definition count_runs (tr : list Event) : nat := List.length (List.filter is_run tr).

(** ** Reading the configuration string, in the words of the specification

    The three notions the specification uses for [host:port]: how many
    separators the string holds, the text before the first one (all of
    the string when there is none) and the text after it. *)
Fixpoint count_char (c : ascii) (s : string) : nat :=
  match s with
  | EmptyString => O
  | String a rest => if Ascii.eqb a c then S (count_char c rest) else count_char c rest
  end.

Fixpoint before_first (c : ascii) (s : string) : string :=
  match s with
  | EmptyString => EmptyString
  | String a rest => if Ascii.eqb a c then EmptyString else String a (before_first c rest)
  end.

Fixpoint after_first (c : ascii) (s : string) : string :=
  match s with
  | EmptyString => EmptyString
  | String a rest => if Ascii.eqb a c then rest else after_first c rest
  end.

(** A frame has readable dimensions when [shape[:2]] unpacks into two names. *)
Definition readable (img : Frame) : bool := (2 <=? List.length (shape img))%nat.

(** The application [_launch_flask] builds from a frame: [shape] is
    [(height, width, ...)]. *)
Definition app_of (img : Frame) : FlaskApp :=
  mkApp (nth 1 (shape img) 0%Z) (nth 0 (shape img) 0%Z).

(** ** Sample collaborators

    Stand-ins for the builtins and the codec on the inputs the examples
    below use.  [sample_float] answers as Python's [float] does on the
    two strings it is asked about there: [float("2.5")] is [2.5] and
    [float("abc")] raises [ValueError]; it treats every other string as
    it treats ["abc"]. *)
Definition sample_float (s : string) : Result float :=
  if String.eqb s "2.5" then Ok 2.5%float
  else Raise (ValueError ("could not convert string to float: '" ++ s ++ "'")).

Definition sample_str_float (f : float) : string :=
  if PrimFloat.eqb f 2.5%float then "2.5" else "1.0".

(** A codec that answers with the samples of the frame, one byte each. *)
Definition sample_encode_image (img : Frame) : Result (bool * list Byte.byte) :=
  Ok (true, map (fun _ => Byte.xff) (samples img)).

(** A file system with one template, [viewer.html]. *)
Definition sample_open_read (path : string) : Result string :=
  if String.eqb path "viewer.html"
  then Ok "<title>_TITLE_</title><img src='_IMAGE_FNAME_' width=_WIDTH_ height=_HEIGHT_> _NAME_ every _DELAY_SECS_ s"
  else Raise (FileNotFoundError ("[Errno 2] No such file or directory: '" ++ path ++ "'")).

Definition frame_100x50 : Frame := mkFrame [50%Z; 100%Z; 3%Z] [1%Z; 2%Z; 3%Z].
Definition frame_flat : Frame := mkFrame [7%Z] [1%Z].
Definition frame_640x480 : Frame := mkFrame [480%Z; 640%Z] [9%Z].

(** Failures of the environment used in the examples. *)
Definition connection_refused : PyExn :=
  ConnectionError "HTTPConnectionPool(host='127.0.0.1', port=8080): Max retries exceeded".
Definition address_in_use : PyExn := mkExn "OSError" "[Errno 98] Address already in use".

(** An object as [__init__] leaves it for host ["127.0.0.1:8080"], and the
    same object once [stop()] has armed it. *)
Definition sample_server : ImageServer :=
  mkServer "cam" "127.0.0.1:8080" (PyInt 1) "viewer.html" "127.0.0.1" (PyStr "8080")
           None false false false false.
Definition sample_world : World := mkWorld sample_server [] [].
Definition armed_world : World :=
  mkWorld (set_ready_to_stop true sample_server) [] [].
(** The same object with a template path that does not exist. *)
Definition lost_template_world : World :=
  mkWorld (mkServer "cam" "127.0.0.1:8080" (PyInt 1) "missing.html" "127.0.0.1"
                    (PyStr "8080") None false false false false) [] [].

Section ImageServerClass.

(** [HTTP_PORT_DEFAULT] of module [constants]. *)
Variable HTTP_PORT_DEFAULT : PyVal.
(** The builtin [float] on a [str]: the number, or the [ValueError]. *)
Variable py_float : string -> Result float.
(** [str] on a float. *)
Variable str_float : float -> string.
(** [utils.encode_image(image)]: the pair [(retval, buf)], or what the codec raises. *)
Variable encode_image : Frame -> Result (bool * list Byte.byte).
(** [open(path)] followed by [f.read()]: the text, or the exception. *)
Variable open_read : string -> Result string.

Definition py_str (v : PyVal) : string :=
  match v with
  | PyNone => "None"
  | PyInt z => str_int z
  | PyFloat f => str_float f
  | PyStr s => s
  end.

(** [buf.tobytes()]. *)
Definition tobytes (buf : list Byte.byte) : list Byte.byte := buf.

(** [ImageServer.__init__]. *)
Definition __init__ (http_file camera_name http_host : string)
  (http_delay_secs : PyVal) (http_verbose : bool) : World :=
  let vals := split ":" http_host in
  let host := hd EmptyString vals in
  let port := match vals with
              | [_; p] => PyStr p
              | _ => HTTP_PORT_DEFAULT
              end in
  mkWorld
    (mkServer camera_name http_host http_delay_secs http_file host port
              None false false false false)
    []
    (if http_verbose then [] else [AddFilter _image_fname]).

(** The property [enabled]. *)
Definition enabled (s : ImageServer) : bool :=
  (0 <? String.length (__http_host s))%nat.

(** The getter of the property [image]. *)
Definition image : M (list Byte.byte) :=
  s <- get_self ;;
  match __current_image s with
  | None => ret []
  | Some img =>
      emit (Encode img) ;;
      rb <- lift (encode_image img) ;;
      ret (tobytes (snd rb))
  end.

(** [height, width = image.shape[:2]]. *)
Definition unpack_shape (img : Frame) : M (Z * Z) :=
  match firstn 2 (shape img) with
  | [h; w] => ret (h, w)
  | [_] => raise (ValueError "not enough values to unpack (expected 2, got 1)")
  | _ => raise (ValueError "not enough values to unpack (expected 2, got 0)")
  end.

(** [_launch_flask], without the views (they follow, with the closure
    [flask] as their first argument). *)
Definition _launch_flask (width height : Z) : M unit :=
  let flask := mkApp width height in
  s <- get_self ;;
  spawn (mkThread flask (__host s) (__port s)) ;;
  modify_self (set_flask_launched true) ;;
  emit (LogInfo ("Running HTTP server on http://" ++ __host s ++ ":"
                 ++ py_str (__port s) ++ "/")).

(** The setter of the property [image]. *)
Definition image_setter (img : Frame) : M unit :=
  s <- get_self ;;
  if negb (enabled s) then ret tt
  else if negb (started s) then emit (LogError "ImageServer.start() not called")
  else
    (if negb (__flask_launched s)
     then hw <- unpack_shape img ;; _launch_flask (snd hw) (fst hw)
     else ret tt) ;;
    modify_self (set_current_image (Some img)).

(** The views. *)
Definition index : M ViewResult :=
  s <- get_self ;;
  ret (Redirect ("/image?delay=" ++ py_str (__http_delay_secs s))).

Definition render (flask : FlaskApp) (name : string) (delay_secs : PyVal)
  (html : string) : string :=
  replace "_IMAGE_FNAME_" _image_fname
    (replace "_HEIGHT_" (str_int (height flask))
      (replace "_WIDTH_" (str_int (width flask))
        (replace "_NAME_" name
          (replace "_DELAY_SECS_" (py_str delay_secs)
            (replace "_TITLE_" (name ++ " camera") html))))).

(** [get_page], first statement: [float(delay) if delay else
    self.__http_delay_secs].  An absent parameter ([None]) and an empty
    one are both false for [if delay]. *)
Definition effective_delay (s : ImageServer) (delay : option string) : M PyVal :=
  match delay with
  | Some (String _ _ as d) => f <- lift (py_float d) ;; ret (PyFloat f)
  | _ => ret (__http_delay_secs s)
  end.

(** [get_page], the [try] statement. *)
Definition make_page (flask : FlaskApp) (s : ImageServer) (delay_secs : PyVal)
  : M ViewResult :=
  try_except
    (emit (OpenFile (__http_file s)) ;;
     html <- lift (open_read (__http_file s)) ;;
     let name := __camera_name s in
     ret (Text (render flask name delay_secs html)))
    (fun e =>
       emit (LogError ("Unable to create template file with " ++ __http_file s
                       ++ " [" ++ exn_str e ++ "]")) ;;
       emit (Sleep 1) ;;
       ret NoneResult).

Definition get_page (flask : FlaskApp) (delay : option string) : M ViewResult :=
  s <- get_self ;;
  delay_secs <- effective_delay s delay ;;
  make_page flask s delay_secs.

Definition image_option (flask : FlaskApp) (delay_arg : option string) : M ViewResult :=
  get_page flask delay_arg.

Definition image_path (flask : FlaskApp) (delay : string) : M ViewResult :=
  get_page flask (Some delay).

Definition image_jpg : M ViewResult :=
  body <- image ;;
  ret (ImageResponse body "image/jpeg"
         [("Cache-Control", "no-cache, no-store, must-revalidate");
          ("Pragma", "no-cache")]).

Definition shutdown (environ : Environ) : M ViewResult :=
  s <- get_self ;;
  if negb (__ready_to_stop s) then ret (Text "Not ready to stop")
  else
    (if werkzeug_server_shutdown environ
     then modify_self (set_stopped true) ;; emit ShutdownFunc
     else ret tt) ;;
    ret (Text "Shutting down...").

(** Flask's routing table, as the decorators of [_launch_flask] fill it. *)
Definition dispatch (flask : FlaskApp) (r : Request) : M ViewResult :=
  match r with
  | GET_root => index
  | GET_image delay_arg => image_option flask delay_arg
  | GET_image_path delay => image_path flask delay
  | GET_image_jpg => image_jpg
  | POST_shutdown environ => shutdown environ
  end.

(** Flask serving one request: the view runs; what it returns or raises
    becomes the HTTP response and does not reach the caller of [run]. *)
Definition serve (flask : FlaskApp) (r : Request) (w : World) : World :=
  snd (dispatch flask r w).

Definition serve_all (flask : FlaskApp) (rs : list Request) (w : World) : World :=
  fold_left (fun w r => serve flask r w) rs w.

(** One turn of the body of the [while] of [run_http]: the [try], the
    [except BaseException] and the [finally]. *)
Definition run_once (flask : FlaskApp) (host : string) (port : PyVal)
  (a : RunAttempt) (w : World) : World :=
  let w1 := snd (emit (FlaskRun host port) w) in
  let w2 := serve_all flask (served a) w1 in
  let w3 := match ending a with
            | None => w2
            | Some e =>
                snd ((emit (LogError ("Restarting HTTP server [" ++ exn_str e ++ "]")) ;;
                      emit (Sleep 1)) w2)
            end in
  snd (emit (LogInfo "HTTP server shutdown") w3).

(** [run_http]: the loop tests [self.stopped] before every call of
    [flask_server.run].  [attempts] lists the calls that come to an end;
    when they are used up and the flag is still false, the thread is
    inside the next call. *)
Fixpoint run_http (flask : FlaskApp) (host : string) (port : PyVal)
  (attempts : list RunAttempt) (w : World) : LoopStatus * World :=
  if stopped (self w) then (Exited, w)
  else match attempts with
       | [] => (Serving, snd (emit (FlaskRun host port) w))
       | a :: rest => run_http flask host port rest (run_once flask host port a w)
       end.

(** [ImageServer.start]. *)
Definition start : M unit :=
  s <- get_self ;;
  if __flask_launched s || negb (enabled s) then ret tt
  else if started s then emit (LogError "ImageServer.start() already called")
  else
    emit (LogInfo ("Using template file " ++ __http_file s)) ;;
    emit (LogInfo ("Starting HTTP server on http://" ++ __host s ++ ":"
                   ++ py_str (__port s) ++ "/")) ;;
    modify_self (set_started true).

(** [requests.post(url)] against the outcome [net]: when the request is
    answered and a listener thread of this object exists, that listener
    runs the view. *)
Definition requests_post (net : PostOutcome) (url : string) : M unit :=
  emit (Post url) ;;
  match net with
  | PostFails e => raise e
  | PostAnswered environ =>
      fun w => match threads w with
               | [] => (Ok tt, w)
               | t :: _ => (Ok tt, serve (flask_server t) (POST_shutdown environ) w)
               end
  end.

(** [ImageServer.stop]. *)
Definition stop (net : PostOutcome) : M unit :=
  modify_self (set_ready_to_stop true) ;;
  s <- get_self ;;
  let url := ("http://" ++ __host s ++ ":" ++ py_str (__port s))%string in
  emit (LogInfo ("Shutting down " ++ url)) ;;
  requests_post net (url ++ "/__shutdown__").

(** ** Histories

    What can happen to an object after [__init__]: the calls of the
    embedding pipeline and the requests its listener serves. *)
Inductive Op : Type :=
| OpStart
| OpPublish (img : Frame)
| OpSnapshot
| OpStop (net : PostOutcome)
| OpRequest (r : Request).

Definition is_publish (o : Op) : bool :=
  match o with OpPublish _ => true | _ => false end.

(** A call whose caller goes on whatever it returned or raised. *)
Definition run_op (o : Op) (w : World) : World :=
  match o with
  | OpStart => snd (start w)
  | OpPublish img => snd (image_setter img w)
  | OpSnapshot => snd (image w)
  | OpStop net => snd (stop net w)
  | OpRequest r =>
      match threads w with
      | [] => w
      | t :: _ => serve (flask_server t) r w
      end
  end.

Definition run_ops (ops : list Op) (w : World) : World :=
  fold_left (fun w o => run_op o w) ops w.

(** [encode(F)] of the specification: the bytes of the codec's buffer. *)
Definition encode (img : Frame) : Result (list Byte.byte) :=
  match encode_image img with
  | Ok rb => Ok (tobytes (snd rb))
  | Raise e => Raise e
  end.

(** The first frame of a list that has readable dimensions. *)
Definition first_readable (imgs : list Frame) : option Frame := find readable imgs.

(** The events a call added: the trace of [w'] past the trace of [w]. *)
Definition new_events (w w' : World) : list Event :=
  skipn (List.length (trace w)) (trace w').

(** A request that cannot set [stopped] on the object [s]: anything but
    a POST to the shutdown path that finds the object armed and the
    shutdown function in its environ. *)
Definition harmless (s : ImageServer) (r : Request) : bool :=
  match r with
  | POST_shutdown environ => negb (__ready_to_stop s && werkzeug_server_shutdown environ)
  | _ => true
  end.

(** What holds of every object after [__init__], whatever is called on it. *)
Definition Inv (w : World) : Prop :=
  let s := self w in
  (started s = true -> enabled s = true) /\
  (__flask_launched s = true -> started s = true) /\
  (__flask_launched s = false -> __current_image s = None /\ threads w = []) /\
  (__flask_launched s = true -> exists t, threads w = [t]).

(** [s'] is a later state of the object [s]: what [__init__] computed
    from its arguments is the same, and no flag has gone back to false. *)
Definition evolves (s s' : ImageServer) : Prop :=
  __camera_name s' = __camera_name s /\
  __http_host s' = __http_host s /\
  __http_delay_secs s' = __http_delay_secs s /\
  __http_file s' = __http_file s /\
  __host s' = __host s /\
  __port s' = __port s /\
  (started s = true -> started s' = true) /\
  (__flask_launched s = true -> __flask_launched s' = true) /\
  (__ready_to_stop s = true -> __ready_to_stop s' = true) /\
  (stopped s = true -> stopped s' = true).

(** The listener was started on the address of the object. *)
Definition addressed (s : ImageServer) (t : ServeThread) : Prop :=
  thread_host t = __host s /\ thread_port t = __port s.

(** The delay parameter of a request for the viewer page, by either of
    its two routes; [None] for a request of another route. *)
Definition page_delay (r : Request) : option (option string) :=
  match r with
  | GET_image delay_arg => Some delay_arg
  | GET_image_path delay => Some (Some delay)
  | _ => None
  end.

(** ** Proof steps for the monad *)

(** Unfold the calls down to functions on worlds. *)
Ltac unfold_m :=
  unfold image_jpg, image, index, image_option, image_path, get_page,
    effective_delay, make_page, shutdown, start, stop, requests_post,
    image_setter, _launch_flask, unpack_shape, try_except, spawn, emit,
    modify_self, get_self, lift, bind, raise, ret in *.

Ltac split_match :=
  match goal with
  | |- context [match ?x with _ => _ end] =>
      lazymatch x with
      | context [match _ with _ => _ end] => fail
      | _ => destruct x eqn:?
      end
  end.

Ltac run_m := unfold_m; cbn; repeat (split_match; cbn).

(** Calls only add to the trace. *)
Ltac trace_grows :=
  first [ now (exists []; rewrite app_nil_r)
        | cbn; rewrite <- ?app_assoc; eexists; reflexivity ].

(** ** The configuration string *)

Lemma split_not_nil (sep : ascii) (s : string) : split sep s <> [].
Proof.
  induction s as [|c rest IH]; simpl; [discriminate|].
  destruct (Ascii.eqb c sep); [discriminate|].
  destruct (split sep rest); discriminate.
Qed.

Lemma split_length (sep : ascii) (s : string) :
  List.length (split sep s) = S (count_char sep s).
Proof.
  induction s as [|c rest IH]; simpl; [reflexivity|].
  destruct (Ascii.eqb c sep); simpl; [now rewrite IH|].
  destruct (split sep rest) eqn:E; simpl in *; [discriminate|exact IH].
Qed.

Lemma split_hd (sep : ascii) (s : string) :
  hd EmptyString (split sep s) = before_first sep s.
Proof.
  induction s as [|c rest IH]; simpl; [reflexivity|].
  destruct (Ascii.eqb c sep); simpl; [reflexivity|].
  destruct (split sep rest) eqn:E; simpl in *.
  - now destruct (split_not_nil sep rest).
  - now rewrite IH.
Qed.

Lemma split_no_sep (sep : ascii) (s : string) :
  count_char sep s = O -> split sep s = [s].
Proof.
  induction s as [|c rest IH]; simpl; [reflexivity|].
  destruct (Ascii.eqb c sep); [discriminate|].
  intros H. now rewrite (IH H).
Qed.

Lemma split_one_sep (sep : ascii) (s : string) :
  count_char sep s = 1%nat -> split sep s = [before_first sep s; after_first sep s].
Proof.
  induction s as [|c rest IH]; simpl; [discriminate|].
  destruct (Ascii.eqb c sep).
  - intros H. injection H as H. now rewrite (split_no_sep _ _ H).
  - intros H. now rewrite (IH H).
Qed.

(** C10. For every configuration string, [__init__] takes as bind host the
    text before the first [':'], and takes the port from the string (the
    text after the separator) exactly when the string holds one [':'];
    with no [':'] or with two or more, the port is [HTTP_PORT_DEFAULT]
    and the host is still the text before the first [':']. *)
Theorem C10_host_and_port_of_config_string :
  forall (http_file camera_name http_host : string) (delay : PyVal) (verbose : bool),
    let s := self (__init__ http_file camera_name http_host delay verbose) in
    __host s = before_first ":" http_host /\
    __port s = (if (count_char ":" http_host =? 1)%nat
                then PyStr (after_first ":" http_host)
                else HTTP_PORT_DEFAULT).
Proof.
  intros http_file camera_name http_host delay verbose. cbn.
  split; [apply split_hd|].
  destruct (count_char ":" http_host =? 1)%nat eqn:E.
  - apply Nat.eqb_eq in E. now rewrite (split_one_sep _ _ E).
  - apply Nat.eqb_neq in E.
    pose proof (split_length ":" http_host) as L.
    destruct (split ":" http_host) as [|a [|b [|c l]]]; simpl in L; try reflexivity.
    exfalso; apply E; lia.
Qed.

(** ** What each call does to the object *)

Lemma serve_self (flask : FlaskApp) (r : Request) (w : World) :
  threads (serve flask r w) = threads w /\
  (self (serve flask r w) = self w \/
   self (serve flask r w) = set_stopped true (self w) /\ harmless (self w) r = false).
Proof.
  unfold serve; destruct r; cbn [dispatch harmless]; run_m; auto.
  apply negb_false_iff in Heqb. rewrite Heqb. auto.
Qed.

Lemma start_self (w : World) :
  threads (snd (start w)) = threads w /\
  (self (snd (start w)) = self w \/
   self (snd (start w)) = set_started true (self w) /\
   enabled (self w) = true /\ __flask_launched (self w) = false).
Proof.
  unfold start, get_self, bind, ret, emit, modify_self.
  destruct (__flask_launched (self w)) eqn:L, (enabled (self w)) eqn:E,
    (started (self w)) eqn:S; cbn; auto.
Qed.

Lemma image_self (w : World) :
  threads (snd (image w)) = threads w /\ self (snd (image w)) = self w.
Proof. run_m; auto. Qed.

Lemma stop_self (net : PostOutcome) (w : World) :
  threads (snd (stop net w)) = threads w /\
  (self (snd (stop net w)) = set_ready_to_stop true (self w) \/
   self (snd (stop net w)) = set_stopped true (set_ready_to_stop true (self w))).
Proof.
  unfold stop, requests_post, serve; cbn [dispatch]; run_m; auto.
Qed.

(** [shape[:2]] unpacks exactly for the readable frames. *)
Lemma unpack_shape_readable (img : Frame) (w : World) :
  readable img = true ->
  unpack_shape img w = (Ok (nth 0 (shape img) 0%Z, nth 1 (shape img) 0%Z), w).
Proof.
  unfold readable, unpack_shape. destruct (shape img) as [|h [|wd l]]; cbn; try discriminate.
  reflexivity.
Qed.

Lemma unpack_shape_unreadable (img : Frame) (w : World) :
  readable img = false ->
  exists e, unpack_shape img w = (Raise e, w).
Proof.
  unfold readable, unpack_shape. destruct (shape img) as [|h [|wd l]]; cbn; try discriminate;
    eexists; reflexivity.
Qed.

(** The setter, case by case. *)
Lemma image_setter_off (img : Frame) (w : World) :
  enabled (self w) = false -> image_setter img w = (Ok tt, w).
Proof. intros H. unfold image_setter, get_self, bind, ret. now rewrite H. Qed.

Lemma image_setter_not_started (img : Frame) (w : World) :
  enabled (self w) = true -> started (self w) = false ->
  image_setter img w =
    (Ok tt, mkWorld (self w) (threads w)
                    (trace w ++ [LogError "ImageServer.start() not called"])).
Proof. intros H1 H2. unfold image_setter, get_self, bind, emit. now rewrite H1, H2. Qed.

Lemma image_setter_launched (img : Frame) (w : World) :
  enabled (self w) = true -> started (self w) = true ->
  __flask_launched (self w) = true ->
  image_setter img w =
    (Ok tt, mkWorld (set_current_image (Some img) (self w)) (threads w) (trace w)).
Proof.
  intros H1 H2 H3. unfold image_setter, get_self, bind, modify_self, ret.
  now rewrite H1, H2, H3.
Qed.

Lemma image_setter_first (img : Frame) (w : World) :
  enabled (self w) = true -> started (self w) = true ->
  __flask_launched (self w) = false -> readable img = true ->
  let t := mkThread (app_of img) (__host (self w)) (__port (self w)) in
  image_setter img w =
    (Ok tt,
     mkWorld (set_current_image (Some img) (set_flask_launched true (self w)))
             (threads w ++ [t])
             (trace w ++ [ThreadStart t]
                ++ [LogInfo ("Running HTTP server on http://" ++ __host (self w) ++ ":"
                             ++ py_str (__port (self w)) ++ "/")])).
Proof.
  intros H1 H2 H3 H4. unfold image_setter, get_self, bind.
  rewrite H1, H2, H3. cbn. rewrite (unpack_shape_readable _ _ H4). cbn.
  unfold app_of. now rewrite <- app_assoc.
Qed.

Lemma image_setter_unreadable (img : Frame) (w : World) :
  enabled (self w) = true -> started (self w) = true ->
  __flask_launched (self w) = false -> readable img = false ->
  exists e, image_setter img w = (Raise e, w).
Proof.
  intros H1 H2 H3 H4. unfold image_setter, get_self, bind.
  rewrite H1, H2, H3. cbn.
  destruct (unpack_shape_unreadable _ w H4) as [e ->]. now exists e.
Qed.

(** ** The invariant *)

Lemma Inv_init (http_file camera_name http_host : string) (delay : PyVal) (verbose : bool) :
  Inv (__init__ http_file camera_name http_host delay verbose).
Proof. unfold Inv; cbn. repeat split; try discriminate. Qed.

Lemma Inv_run_op (o : Op) (w : World) : Inv w -> Inv (run_op o w).
Proof.
  intros I. destruct o as [|img| |net|r]; cbn [run_op].
  - destruct (start_self w) as [T [S|(S & E & L)]]; unfold Inv in *; rewrite T, S;
      unfold enabled in *; cbn; intuition auto.
  - destruct (enabled (self w)) eqn:E;
      [|now rewrite (image_setter_off _ _ E)].
    destruct (started (self w)) eqn:S;
      [|rewrite (image_setter_not_started _ _ E S); unfold Inv in *; cbn; exact I].
    destruct (__flask_launched (self w)) eqn:L.
    + rewrite (image_setter_launched _ _ E S L).
      unfold Inv, enabled in *; cbn. rewrite L, S in *. intuition (auto; discriminate).
    + destruct (readable img) eqn:R.
      * rewrite (image_setter_first _ _ E S L R).
        unfold Inv, enabled in *; cbn. rewrite L, S in *.
        destruct I as (I1 & _ & I3 & _). destruct (I3 eq_refl) as [_ ->].
        repeat split; auto; try discriminate.
        intros _. eexists; reflexivity.
      * now destruct (image_setter_unreadable _ _ E S L R) as [e ->].
  - destruct (image_self w) as [T S]. unfold Inv in *. now rewrite T, S.
  - destruct (stop_self net w) as [T [S|S]]; unfold Inv, enabled in *; rewrite T, S;
      cbn; exact I.
  - destruct (threads w) as [|t ths] eqn:Th; [exact I|].
    destruct (serve_self (flask_server t) r w) as [T [S|[S _]]];
      unfold Inv, enabled in *; rewrite T, S, Th; cbn; rewrite Th in I; exact I.
Qed.

Lemma run_ops_app (ops1 ops2 : list Op) (w : World) :
  run_ops (ops1 ++ ops2) w = run_ops ops2 (run_ops ops1 w).
Proof. unfold run_ops. apply fold_left_app. Qed.

Lemma Inv_run_ops (ops : list Op) (w : World) : Inv w -> Inv (run_ops ops w).
Proof.
  revert w. induction ops as [|o ops IH]; intros w H; cbn; [exact H|].
  apply IH, Inv_run_op, H.
Qed.

(** In every history there is at most one listener thread. *)
Lemma threads_at_most_one (http_file camera_name http_host : string) (delay : PyVal)
  (verbose : bool) (ops : list Op) :
  (List.length
     (threads (run_ops ops (__init__ http_file camera_name http_host delay verbose)))
   <= 1)%nat.
Proof.
  pose proof (Inv_run_ops ops _ (Inv_init http_file camera_name http_host delay verbose))
    as (_ & _ & I3 & I4).
  destruct (__flask_launched _).
  - destruct (I4 eq_refl) as [t ->]. cbn; lia.
  - destruct (I3 eq_refl) as [_ ->]. cbn; lia.
Qed.

(** ** The frame store *)

Lemma new_events_app (w w' : World) (evs : list Event) :
  trace w' = trace w ++ evs -> new_events w w' = evs.
Proof.
  unfold new_events. intros ->. induction (trace w) as [|e tr IH]; cbn; auto.
Qed.

Lemma run_op_keeps_image (o : Op) (w : World) :
  is_publish o = false ->
  __current_image (self (run_op o w)) = __current_image (self w).
Proof.
  destruct o as [|img| |net|r]; cbn [run_op is_publish]; intros H; try discriminate.
  - now destruct (start_self w) as [_ [->|[-> _]]].
  - now destruct (image_self w) as [_ ->].
  - now destruct (stop_self net w) as [_ [->| ->]].
  - destruct (threads w) as [|t ths]; [reflexivity|].
    now destruct (serve_self (flask_server t) r w) as [_ [->|[-> _]]].
Qed.

Lemma run_ops_keep_image (ops : list Op) (w : World) :
  forallb (fun o => negb (is_publish o)) ops = true ->
  __current_image (self (run_ops ops w)) = __current_image (self w).
Proof.
  revert w. induction ops as [|o ops IH]; intros w H; cbn in *; [reflexivity|].
  apply andb_true_iff in H as [Ho Hops]. apply negb_true_iff in Ho.
  unfold run_ops in IH. rewrite (IH _ Hops). now apply run_op_keeps_image.
Qed.

Lemma image_empty (w : World) :
  __current_image (self w) = None -> image w = (Ok [], w).
Proof. intros H. unfold image, get_self, bind, ret. now rewrite H. Qed.

Lemma image_stored (img : Frame) (w : World) :
  __current_image (self w) = Some img ->
  image w = (encode img, mkWorld (self w) (threads w) (trace w ++ [Encode img])).
Proof.
  intros H. unfold image, get_self, bind, ret, emit, lift, encode. rewrite H.
  now destruct (encode_image img).
Qed.

(** C1 (as the code has it). On a server that is enabled and started,
    [publish(F)] is accepted when the listener is already launched or
    [F] has readable dimensions: it then returns normally, and every
    later [snapshot()] with no publish in between, whatever else was
    called, returns exactly [encode(F)]; each such call asks the codec
    again, once, and leaves the object as it was.  Otherwise (the
    listener is not launched and the shape of [F] has fewer than two
    entries) the setter raises, the world is as before and the stored
    frame stays what it was. *)
Theorem C1_snapshot_is_encode_of_published_frame :
  forall (w : World) (F : Frame) (ops : list Op),
    enabled (self w) = true ->
    started (self w) = true ->
    forallb (fun o => negb (is_publish o)) ops = true ->
    let w1 := snd (image_setter F w) in
    let w2 := run_ops ops w1 in
    if __flask_launched (self w) || readable F
    then fst (image_setter F w) = Ok tt /\
         fst (image w2) = encode F /\
         new_events w2 (snd (image w2)) = [Encode F] /\
         self (snd (image w2)) = self w2
    else (exists e, image_setter F w = (Raise e, w)) /\
         __current_image (self w2) = __current_image (self w).
Proof.
  intros w F ops E S Hops w1 w2.
  destruct (__flask_launched (self w)) eqn:L; [|destruct (readable F) eqn:R]; cbn [orb].
  - assert (H2 : __current_image (self w1) = Some F)
      by (subst w1; now rewrite (image_setter_launched _ _ E S L)).
    split; [now rewrite (image_setter_launched _ _ E S L)|].
    assert (H3 : __current_image (self w2) = Some F)
      by (subst w2; now rewrite (run_ops_keep_image _ _ Hops)).
    rewrite (image_stored _ _ H3). cbn [fst snd self].
    repeat split. now apply new_events_app.
  - assert (H2 : __current_image (self w1) = Some F)
      by (subst w1; now rewrite (image_setter_first _ _ E S L R)).
    split; [now rewrite (image_setter_first _ _ E S L R)|].
    assert (H3 : __current_image (self w2) = Some F)
      by (subst w2; now rewrite (run_ops_keep_image _ _ Hops)).
    rewrite (image_stored _ _ H3). cbn [fst snd self].
    repeat split. now apply new_events_app.
  - destruct (image_setter_unreadable _ _ E S L R) as [e He].
    split; [now exists e|].
    subst w2 w1. rewrite (run_ops_keep_image _ _ Hops). now rewrite He.
Qed.

(** C2. On an object on which nothing was ever published, whatever else
    was called on it since [__init__], [snapshot()] returns the empty
    sequence (and does not ask the codec). *)
Theorem C2_snapshot_empty_when_never_published :
  forall (http_file camera_name http_host : string) (delay : PyVal) (verbose : bool)
         (ops : list Op),
    forallb (fun o => negb (is_publish o)) ops = true ->
    let w := run_ops ops (__init__ http_file camera_name http_host delay verbose) in
    image w = (Ok [], w).
Proof.
  intros http_file camera_name http_host delay verbose ops Hops w.
  apply image_empty. subst w. now rewrite (run_ops_keep_image _ _ Hops).
Qed.

(** C4. On any object reached from [__init__], a [publish(frame)] made
    before [start()] or on a disabled server (empty host string) returns
    normally and changes nothing of the object: the stored frame stays
    absent, no thread is started and the launched flag stays false (the
    only effect is the error log line of the not-started case), and
    [snapshot()] still returns the empty result. *)
Theorem C4_publish_is_noop_when_off_or_not_started :
  forall (http_file camera_name http_host : string) (delay : PyVal) (verbose : bool)
         (ops : list Op) (img : Frame),
    let w := run_ops ops (__init__ http_file camera_name http_host delay verbose) in
    enabled (self w) = false \/ started (self w) = false ->
    let w' := snd (image_setter img w) in
    fst (image_setter img w) = Ok tt /\
    self w' = self w /\
    __current_image (self w') = None /\
    threads w' = [] /\
    __flask_launched (self w') = false /\
    new_events w w' = (if enabled (self w)
                       then [LogError "ImageServer.start() not called"] else []) /\
    image w' = (Ok [], w').
Proof.
  intros http_file camera_name http_host delay verbose ops img w H w'.
  assert (I : Inv w) by (apply Inv_run_ops, Inv_init).
  destruct I as (I1 & I2 & I3 & _).
  assert (S : started (self w) = false).
  { destruct H as [H|H]; [|exact H].
    destruct (started (self w)); [|reflexivity]. rewrite (I1 eq_refl) in H. discriminate. }
  assert (L : __flask_launched (self w) = false).
  { destruct (__flask_launched (self w)); [|reflexivity]. rewrite (I2 eq_refl) in S.
    discriminate. }
  destruct (I3 L) as [C T].
  assert (W : fst (image_setter img w) = Ok tt /\ self w' = self w /\ threads w' = threads w
              /\ trace w' = trace w ++ (if enabled (self w)
                       then [LogError "ImageServer.start() not called"] else [])).
  { subst w'. destruct (enabled (self w)) eqn:E.
    - now rewrite (image_setter_not_started _ _ E S).
    - rewrite (image_setter_off _ _ E). now rewrite app_nil_r. }
  destruct W as (W1 & W2 & W3 & W4).
  repeat split; try congruence.
  - now apply new_events_app.
  - apply image_empty. congruence.
Qed.

(** ** Bootstrap *)

(** Once the flag is set no call starts a thread or clears the flag. *)
Lemma launched_run_op (o : Op) (w : World) :
  Inv w -> __flask_launched (self w) = true ->
  threads (run_op o w) = threads w /\ __flask_launched (self (run_op o w)) = true.
Proof.
  intros (I1 & I2 & _) L. pose proof (I2 L) as S. pose proof (I1 S) as E.
  destruct o as [|img| |net|r]; cbn [run_op].
  - destruct (start_self w) as [T [->|[_ [_ L']]]]; [now split|congruence].
  - now rewrite (image_setter_launched _ _ E S L).
  - destruct (image_self w) as [T ->]. now split.
  - destruct (stop_self net w) as [T [->| ->]]; now split.
  - destruct (threads w) as [|t ths] eqn:Th; [now split|].
    destruct (serve_self (flask_server t) r w) as [T [->|[-> _]]]; rewrite T, Th; now split.
Qed.

Lemma launched_run_ops (ops : list Op) (w : World) :
  Inv w -> __flask_launched (self w) = true ->
  threads (run_ops ops w) = threads w /\ __flask_launched (self (run_ops ops w)) = true.
Proof.
  revert w. induction ops as [|o ops IH]; intros w I L; cbn; [now split|].
  destruct (launched_run_op o w I L) as [T L'].
  destruct (IH (run_op o w) (Inv_run_op o w I) L') as [T' L''].
  unfold run_ops in *. split; congruence.
Qed.

Lemma publishes_launch_first_readable (imgs : list Frame) (w : World) :
  Inv w -> started (self w) = true -> __flask_launched (self w) = false ->
  let w' := run_ops (map OpPublish imgs) w in
  threads w' = match first_readable imgs with
               | Some F => [mkThread (app_of F) (__host (self w)) (__port (self w))]
               | None => []
               end /\
  __flask_launched (self w') = match first_readable imgs with
                               | Some _ => true
                               | None => false
                               end.
Proof.
  intros I S L. pose proof I as (I1 & _ & I3 & _). pose proof (I1 S) as E.
  destruct (I3 L) as [_ T].
  unfold first_readable, run_ops.
  induction imgs as [|img imgs IH]; cbn [map fold_left run_op find]; [now split|].
  destruct (readable img) eqn:R.
  - pose proof (image_setter_first _ _ E S L R) as Hs. cbn zeta in Hs.
    pose proof (Inv_run_op (OpPublish img) w I) as I'. cbn [run_op] in I'.
    rewrite Hs in *. cbn [snd] in *.
    match goal with |- context [fold_left _ _ ?x] => set (w1 := x) in * end.
    destruct (launched_run_ops (map OpPublish imgs) w1 I' eq_refl) as [T' L'].
    unfold run_ops in T', L'. rewrite T', L'. subst w1. cbn [threads]. now rewrite T.
  - destruct (image_setter_unreadable _ _ E S L R) as [e ->]. cbn [snd]. exact IH.
Qed.

(** C5. After [start()], in any history, the thread is started by the
    first publish whose frame has readable dimensions and by no other
    call: after any sequence of publishes there is one thread exactly
    when one of the frames was readable, it carries the width and the
    height of the first such frame, every later publish finds the
    launched flag set, and whatever is called afterwards the threads stay
    that one, so that every request is served by the application built
    from that first frame. *)
Theorem C5_bootstrap_at_most_once :
  forall (http_file camera_name http_host : string) (delay : PyVal) (verbose : bool)
         (before : list Op) (imgs : list Frame),
    let w := run_ops before (__init__ http_file camera_name http_host delay verbose) in
    started (self w) = true ->
    __flask_launched (self w) = false ->
    let w' := run_ops (map OpPublish imgs) w in
    match first_readable imgs with
    | None => threads w' = [] /\ __flask_launched (self w') = false
    | Some F =>
        threads w' = [mkThread (app_of F) (__host (self w)) (__port (self w))] /\
        __flask_launched (self w') = true /\
        forall (later : list Op),
          let w'' := run_ops later w' in
          threads w'' = threads w' /\
          __flask_launched (self w'') = true /\
          forall r : Request, run_op (OpRequest r) w'' = serve (app_of F) r w''
    end.
Proof.
  intros http_file camera_name http_host delay verbose before imgs w S L w'.
  assert (I : Inv w) by (apply Inv_run_ops, Inv_init).
  destruct (publishes_launch_first_readable imgs w I S L) as [T L'].
  fold w' in T, L'. destruct (first_readable imgs) as [F|]; [|now split].
  repeat split; auto. 
  - apply launched_run_ops; [apply Inv_run_ops, I|exact L'].
  - apply launched_run_ops; [apply Inv_run_ops, I|exact L'].
  - intros r. cbn [run_op].
    destruct (launched_run_ops later w' (Inv_run_ops _ _ I) L') as [-> _].
    now rewrite T.
Qed.

(** ** The views *)

Lemma make_page_ok (flask : FlaskApp) (s : ImageServer) (delay_secs : PyVal)
  (html : string) (w : World) :
  open_read (__http_file s) = Ok html ->
  make_page flask s delay_secs w =
    (Ok (Text (render flask (__camera_name s) delay_secs html)),
     mkWorld (self w) (threads w) (trace w ++ [OpenFile (__http_file s)])).
Proof. intros H. unfold make_page, try_except, bind, emit, lift, ret. now rewrite H. Qed.

Lemma make_page_failure (flask : FlaskApp) (s : ImageServer) (delay_secs : PyVal)
  (e : PyExn) (w : World) :
  open_read (__http_file s) = Raise e ->
  make_page flask s delay_secs w =
    (Ok NoneResult,
     mkWorld (self w) (threads w)
       (trace w ++ [OpenFile (__http_file s);
                    LogError ("Unable to create template file with " ++ __http_file s
                              ++ " [" ++ exn_str e ++ "]");
                    Sleep 1])).
Proof.
  intros H. unfold make_page, try_except, bind, emit, lift, ret. rewrite H. cbn.
  now rewrite <- !app_assoc.
Qed.

Lemma get_page_unfold (flask : FlaskApp) (delay : option string) (w : World) :
  get_page flask delay w =
    match effective_delay (self w) delay w with
    | (Ok delay_secs, w') => make_page flask (self w) delay_secs w'
    | (Raise e, w') => (Raise e, w')
    end.
Proof. reflexivity. Qed.

(** C3 (as the code has it). A viewer-page request whose delay parameter
    is present, not empty and accepted by [float] is rendered with that
    number as delay; a request without the parameter, or with an empty
    one, is rendered with the configured default; a request whose
    parameter is not empty and is refused by [float] is not rendered at
    all: the [ValueError] leaves the view, before the template is read. *)
Theorem C3_delay_override_default_or_error :
  forall (flask : FlaskApp) (w : World),
    let s := self w in
    (forall (c : ascii) (d : string) (f : float) (html : string),
        py_float (String c d) = Ok f ->
        open_read (__http_file s) = Ok html ->
        fst (get_page flask (Some (String c d)) w) =
          Ok (Text (render flask (__camera_name s) (PyFloat f) html))) /\
    (forall (delay : option string) (html : string),
        delay = None \/ delay = Some EmptyString ->
        open_read (__http_file s) = Ok html ->
        fst (get_page flask delay w) =
          Ok (Text (render flask (__camera_name s) (__http_delay_secs s) html))) /\
    (forall (c : ascii) (d : string) (e : PyExn),
        py_float (String c d) = Raise e ->
        get_page flask (Some (String c d)) w = (Raise e, w)).
Proof.
  intros flask w s. repeat split.
  - intros c d f html Hf Hr. rewrite get_page_unfold. cbn [effective_delay].
    unfold bind, lift, ret. rewrite Hf. fold s. now rewrite (make_page_ok _ _ _ _ _ Hr).
  - intros delay html [-> | ->] Hr; rewrite get_page_unfold; cbn [effective_delay];
      unfold ret; fold s; now rewrite (make_page_ok _ _ _ _ _ Hr).
  - intros c d e Hf. rewrite get_page_unfold. cbn [effective_delay].
    unfold bind, lift, ret. now rewrite Hf.
Qed.

(** C6 (as the code has it). The view of [POST /__shutdown__]: on an
    object that is not armed it answers "Not ready to stop" and changes
    nothing; on an armed object it answers "Shutting down...", and it
    sets [stopped] and calls the shutdown function exactly when the
    request's environ holds that function; when the environ does not hold
    it, the armed object is left as it was and nothing is shut down. *)
Theorem C6_shutdown_view :
  forall (environ : Environ) (w : World),
    (__ready_to_stop (self w) = false ->
     shutdown environ w = (Ok (Text "Not ready to stop"), w)) /\
    (__ready_to_stop (self w) = true ->
     werkzeug_server_shutdown environ = true ->
     shutdown environ w =
       (Ok (Text "Shutting down..."),
        mkWorld (set_stopped true (self w)) (threads w) (trace w ++ [ShutdownFunc]))) /\
    (__ready_to_stop (self w) = true ->
     werkzeug_server_shutdown environ = false ->
     shutdown environ w = (Ok (Text "Shutting down..."), w)).
Proof.
  intros environ w. unfold shutdown, get_self, bind, ret, modify_self, emit.
  repeat split; intros H; try intros H'; rewrite H; cbn; try rewrite H'; reflexivity.
Qed.

Lemma new_events_same (w : World) : new_events w w = [].
Proof. unfold new_events. apply skipn_all. Qed.

(** C7. A viewer-page request, by either route, whose view opens the
    template and fails to read it (missing or unreadable file) is
    answered without an exception: the view logs the failure with the
    path and the error, sleeps one second and returns nothing, which is
    what Flask turns into its failure response; serving the request
    leaves exactly these three events and neither the object nor the
    threads are touched. *)
Theorem C7_template_failure_is_logged_and_answered :
  forall (flask : FlaskApp) (r : Request) (delay : option string) (w : World) (e : PyExn),
    let path := __http_file (self w) in
    page_delay r = Some delay ->
    open_read path = Raise e ->
    In (OpenFile path) (new_events w (snd (dispatch flask r w))) ->
    let w' := mkWorld (self w) (threads w)
                (trace w ++ [OpenFile path;
                             LogError ("Unable to create template file with " ++ path
                                       ++ " [" ++ exn_str e ++ "]");
                             Sleep 1]) in
    dispatch flask r w = (Ok NoneResult, w') /\
    serve flask r w = w'.
Proof.
  intros flask r delay w e path Hr Hf Hopen w'.
  assert (D : dispatch flask r w = get_page flask delay w).
  { destruct r; cbn in Hr; try discriminate; injection Hr as <-; reflexivity. }
  rewrite D in Hopen.
  assert (G : get_page flask delay w = (Ok NoneResult, w')).
  { rewrite get_page_unfold in *.
    destruct (effective_delay (self w) delay w) as [[ds|e'] w0] eqn:Ed.
    - assert (w0 = w) as ->.
      { unfold effective_delay, bind, lift, ret in Ed.
        destruct delay as [[|c d]|]; try (destruct (py_float (String c d))); congruence. }
      now apply make_page_failure.
    - assert (w0 = w) as ->.
      { unfold effective_delay, bind, lift, ret in Ed.
        destruct delay as [[|c d]|]; try (destruct (py_float (String c d))); congruence. }
      cbn [snd] in Hopen. rewrite new_events_same in Hopen. destruct Hopen. }
  unfold serve. rewrite D, G. now split.
Qed.

(** ** The serve loop *)

Lemma serve_harmless (flask : FlaskApp) (r : Request) (w : World) :
  harmless (self w) r = true -> self (serve flask r w) = self w.
Proof.
  intros H. destruct (serve_self flask r w) as [_ [S|[_ S]]]; congruence.
Qed.

Lemma serve_all_harmless (flask : FlaskApp) (rs : list Request) (w : World) :
  forallb (harmless (self w)) rs = true -> self (serve_all flask rs w) = self w.
Proof.
  revert w. induction rs as [|r rs IH]; intros w H; cbn in *; [reflexivity|].
  apply andb_true_iff in H as [Hr Hrs].
  pose proof (serve_harmless flask r w Hr) as S.
  unfold serve_all in IH. rewrite IH; rewrite S; auto.
Qed.

(** No view clears [stopped] or [__ready_to_stop]. *)
Lemma serve_keeps_flags (flask : FlaskApp) (r : Request) (w : World) :
  __ready_to_stop (self (serve flask r w)) = __ready_to_stop (self w) /\
  (stopped (self w) = true -> stopped (self (serve flask r w)) = true).
Proof.
  destruct (serve_self flask r w) as [_ [->|[-> _]]]; cbn; auto.
Qed.

Lemma serve_all_keeps_flags (flask : FlaskApp) (rs : list Request) (w : World) :
  __ready_to_stop (self (serve_all flask rs w)) = __ready_to_stop (self w) /\
  (stopped (self w) = true -> stopped (self (serve_all flask rs w)) = true).
Proof.
  revert w. induction rs as [|r rs IH]; intros w; cbn; [auto|].
  destruct (serve_keeps_flags flask r w) as [R S].
  destruct (IH (serve flask r w)) as [R' S']. unfold serve_all in *.
  split; [congruence|auto].
Qed.

Lemma serve_shutdown_armed (flask : FlaskApp) (w : World) :
  __ready_to_stop (self w) = true ->
  stopped (self (serve flask (POST_shutdown (mkEnviron true)) w)) = true.
Proof.
  intros H. unfold serve. cbn [dispatch]. unfold shutdown, get_self, bind, ret,
    modify_self, emit. rewrite H. reflexivity.
Qed.

Lemma serve_all_shutdown_armed (flask : FlaskApp) (rs : list Request) (w : World) :
  __ready_to_stop (self w) = true ->
  In (POST_shutdown (mkEnviron true)) rs ->
  stopped (self (serve_all flask rs w)) = true.
Proof.
  revert w. induction rs as [|r rs IH]; intros w A Hin; [destruct Hin|].
  destruct Hin as [->|Hin]; cbn.
  - apply serve_all_keeps_flags, serve_shutdown_armed, A.
  - apply IH; [|exact Hin]. now rewrite (proj1 (serve_keeps_flags flask r w)).
Qed.

Lemma serve_trace (flask : FlaskApp) (r : Request) (w : World) :
  exists evs, trace (serve flask r w) = trace w ++ evs.
Proof.
  unfold serve; destruct r; cbn [dispatch]; run_m; trace_grows.
Qed.

Lemma serve_all_trace (flask : FlaskApp) (rs : list Request) (w : World) :
  exists evs, trace (serve_all flask rs w) = trace w ++ evs.
Proof.
  revert w. induction rs as [|r rs IH]; intros w; cbn; [trace_grows|].
  destruct (serve_trace flask r w) as [e1 H1].
  destruct (IH (serve flask r w)) as [e2 H2]. unfold serve_all in H2.
  exists (e1 ++ e2). now rewrite H2, H1, app_assoc.
Qed.

Lemma run_once_trace (flask : FlaskApp) (host : string) (port : PyVal)
  (a : RunAttempt) (w : World) :
  exists evs, trace (run_once flask host port a w) = trace w ++ FlaskRun host port :: evs.
Proof.
  unfold run_once.
  destruct (serve_all_trace flask (served a) (snd (emit (FlaskRun host port) w))) as [e1 H1].
  cbn in H1. destruct (ending a) as [e|]; cbn; rewrite H1, <- !app_assoc; cbn;
    eexists; reflexivity.
Qed.

Lemma run_http_stopped (flask : FlaskApp) (host : string) (port : PyVal)
  (attempts : list RunAttempt) (w : World) :
  stopped (self w) = true -> run_http flask host port attempts w = (Exited, w).
Proof. intros H. destruct attempts; cbn; now rewrite H. Qed.

Lemma run_http_step (flask : FlaskApp) (host : string) (port : PyVal)
  (a : RunAttempt) (rest : list RunAttempt) (w : World) :
  stopped (self w) = false ->
  run_http flask host port (a :: rest) w =
    run_http flask host port rest (run_once flask host port a w).
Proof. intros H. cbn [run_http]. now rewrite H. Qed.

Lemma run_http_trace (flask : FlaskApp) (host : string) (port : PyVal)
  (attempts : list RunAttempt) (w : World) :
  exists evs, trace (snd (run_http flask host port attempts w)) = trace w ++ evs.
Proof.
  revert w. induction attempts as [|a rest IH]; intros w; cbn [run_http];
    destruct (stopped (self w)); try trace_grows.
  destruct (run_once_trace flask host port a w) as [e1 H1].
  destruct (IH (run_once flask host port a w)) as [e2 H2].
  rewrite H2, H1, <- app_assoc. eexists; reflexivity.
Qed.

(** While [stopped] is false the loop's next act is to run the listener. *)
Lemma run_http_runs_first (flask : FlaskApp) (host : string) (port : PyVal)
  (attempts : list RunAttempt) (w : World) :
  stopped (self w) = false ->
  exists evs, trace (snd (run_http flask host port attempts w))
              = trace w ++ FlaskRun host port :: evs.
Proof.
  intros H. destruct attempts as [|a rest].
  - cbn. rewrite H. cbn. eexists; reflexivity.
  - rewrite (run_http_step _ _ _ _ _ _ H).
    destruct (run_once_trace flask host port a w) as [e1 H1].
    destruct (run_http_trace flask host port rest (run_once flask host port a w)) as [e2 H2].
    rewrite H2, H1, <- app_assoc. cbn. eexists; reflexivity.
Qed.

Lemma run_once_failure (flask : FlaskApp) (host : string) (port : PyVal)
  (a : RunAttempt) (e : PyExn) (w : World) :
  ending a = Some e ->
  let w1 := serve_all flask (served a) (snd (emit (FlaskRun host port) w)) in
  let w' := run_once flask host port a w in
  self w' = self w1 /\ threads w' = threads w1 /\
  trace w' = trace w1 ++ [LogError ("Restarting HTTP server [" ++ exn_str e ++ "]");
                          Sleep 1; LogInfo "HTTP server shutdown"].
Proof.
  intros H. unfold run_once. rewrite H. cbn. now rewrite <- !app_assoc.
Qed.

Lemma run_once_return (flask : FlaskApp) (host : string) (port : PyVal)
  (a : RunAttempt) (w : World) :
  ending a = None ->
  let w1 := serve_all flask (served a) (snd (emit (FlaskRun host port) w)) in
  let w' := run_once flask host port a w in
  self w' = self w1 /\ threads w' = threads w1 /\
  trace w' = trace w1 ++ [LogInfo "HTTP server shutdown"].
Proof. intros H. unfold run_once. rewrite H. cbn. auto. Qed.

(** A failing turn that serves only harmless requests leaves the object as it was. *)
Lemma run_once_harmless (flask : FlaskApp) (host : string) (port : PyVal)
  (a : RunAttempt) (w : World) :
  forallb (harmless (self w)) (served a) = true ->
  self (run_once flask host port a w) = self w.
Proof.
  intros H. unfold run_once.
  assert (S : self (serve_all flask (served a) (snd (emit (FlaskRun host port) w))) = self w).
  { now rewrite serve_all_harmless. }
  destruct (ending a); cbn; exact S.
Qed.

Lemma run_http_keeps_serving (flask : FlaskApp) (host : string) (port : PyVal)
  (attempts : list RunAttempt) (w : World) :
  stopped (self w) = false ->
  forallb (fun a => forallb (harmless (self w)) (served a)) attempts = true ->
  fst (run_http flask host port attempts w) = Serving /\
  self (snd (run_http flask host port attempts w)) = self w.
Proof.
  revert w. induction attempts as [|a rest IH]; intros w S H.
  - cbn. rewrite S. now split.
  - cbn [forallb] in H. apply andb_true_iff in H as [Ha Hrest].
    rewrite (run_http_step _ _ _ _ _ _ S).
    pose proof (run_once_harmless flask host port a w Ha) as E.
    destruct (IH (run_once flask host port a w)) as [I1 I2]; rewrite ?E; auto.
    split; [exact I1|congruence].
Qed.

(** C8. The serve loop, entered with [stopped] false.  A call of the
    listener that fails is logged, followed by a sleep of one second and
    the shutdown log line; then the loop exits if [stopped] has been set
    meanwhile and otherwise runs the listener again.  As long as no
    served request sets [stopped] the loop never exits, however many
    calls come to an end.  Once [stopped] is set and the call returns,
    the loop exits; an armed object that serves the shutdown request with
    the shutdown function in its environ has [stopped] set. *)
Theorem C8_serve_loop_restarts_until_stopped :
  forall (flask : FlaskApp) (host : string) (port : PyVal) (w : World),
    stopped (self w) = false ->
    (forall (a : RunAttempt) (rest : list RunAttempt) (e : PyExn),
        ending a = Some e ->
        let w1 := serve_all flask (served a) (snd (emit (FlaskRun host port) w)) in
        let w' := run_once flask host port a w in
        trace w' = trace w1 ++ [LogError ("Restarting HTTP server [" ++ exn_str e ++ "]");
                                Sleep 1; LogInfo "HTTP server shutdown"] /\
        (stopped (self w') = true ->
         run_http flask host port (a :: rest) w = (Exited, w')) /\
        (stopped (self w') = false ->
         run_http flask host port (a :: rest) w = run_http flask host port rest w' /\
         exists evs, trace (snd (run_http flask host port rest w'))
                     = trace w' ++ FlaskRun host port :: evs)) /\
    (forall (attempts : list RunAttempt),
        forallb (fun a => forallb (harmless (self w)) (served a)) attempts = true ->
        fst (run_http flask host port attempts w) = Serving /\
        stopped (self (snd (run_http flask host port attempts w))) = false) /\
    (forall (a : RunAttempt) (rest : list RunAttempt),
        ending a = None ->
        stopped (self (run_once flask host port a w)) = true ->
        run_http flask host port (a :: rest) w = (Exited, run_once flask host port a w)) /\
    (forall (a : RunAttempt),
        __ready_to_stop (self w) = true ->
        In (POST_shutdown (mkEnviron true)) (served a) ->
        stopped (self (run_once flask host port a w)) = true).
Proof.
  intros flask host port w S. repeat split.
  - now apply run_once_failure.
  - intros S'. rewrite (run_http_step _ _ _ _ _ _ S). now apply run_http_stopped.
  - now apply run_http_step.
  - now apply run_http_runs_first.
  - now apply run_http_keeps_serving.
  - destruct (run_http_keeps_serving flask host port attempts w S H) as [_ ->]. exact S.
  - intros a rest _ S'. rewrite (run_http_step _ _ _ _ _ _ S). now apply run_http_stopped.
  - intros a A Hin. unfold run_once.
    assert (X : stopped (self (serve_all flask (served a)
                                 (snd (emit (FlaskRun host port) w)))) = true)
      by (apply serve_all_shutdown_armed; [exact A|exact Hin]).
    destruct (ending a); cbn; exact X.
Qed.

(** ** Stopping *)

Lemma stop_answered (environ : Environ) (w : World) :
  fst (stop (PostAnswered environ) w) = Ok tt.
Proof.
  unfold stop, requests_post, bind, modify_self, get_self, emit. cbn.
  now destruct (threads w).
Qed.

Lemma stop_fails (e : PyExn) (w : World) :
  let url := ("http://" ++ __host (self w) ++ ":" ++ py_str (__port (self w)))%string in
  stop (PostFails e) w =
    (Raise e,
     mkWorld (set_ready_to_stop true (self w)) (threads w)
       (trace w ++ [LogInfo ("Shutting down " ++ url); Post (url ++ "/__shutdown__")])).
Proof.
  unfold stop, requests_post, bind, modify_self, get_self, emit, raise.
  cbn [fst snd self threads trace set_ready_to_stop __host __port].
  now rewrite <- !app_assoc.
Qed.

Lemma stop_arms (net : PostOutcome) (w : World) :
  __ready_to_stop (self (snd (stop net w))) = true.
Proof. now destruct (stop_self net w) as [_ [->| ->]]. Qed.

Lemma stop_posts (net : PostOutcome) (w : World) :
  let url := ("http://" ++ __host (self w) ++ ":" ++ py_str (__port (self w)))%string in
  exists evs,
    trace (snd (stop net w)) =
      trace w ++ LogInfo ("Shutting down " ++ url) :: Post (url ++ "/__shutdown__") :: evs.
Proof.
  intros url. destruct net as [environ|e].
  - unfold stop, requests_post, bind, modify_self, get_self, emit.
    cbn [fst snd self threads trace set_ready_to_stop __host __port].
    match goal with |- context [match ?x with [] => _ | _ => _ end] => destruct x as [|t ths] end.
    + cbn [snd trace]. rewrite <- !app_assoc. now exists [].
    + cbn [snd].
      match goal with |- context [serve ?f ?r ?w0] =>
        destruct (serve_trace f r w0) as [evs ->] end.
      cbn [trace]. rewrite <- !app_assoc. now exists evs.
  - pose proof (stop_fails e w) as H. cbn zeta in H. rewrite H. cbn [snd trace].
    now exists [].
Qed.

(** C9 (as the code has it). A failure to read the template ends in the
    view, which logs it, sleeps and still returns; a failure of the
    listener's run call ends in the serve loop, which logs it, sleeps and
    goes on to its next turn.  [stop()] arms the object and posts to the
    shutdown path of its own address: it returns normally when the POST
    is answered, and when the POST fails (the listener cannot be reached)
    the exception of [requests.post] is raised to the caller of [stop()],
    with the object left armed. *)
Theorem C9_failures_handled_except_in_stop :
  forall (w : World),
    (forall (flask : FlaskApp) (delay_secs : PyVal) (e : PyExn),
        open_read (__http_file (self w)) = Raise e ->
        make_page flask (self w) delay_secs w =
          (Ok NoneResult,
           mkWorld (self w) (threads w)
             (trace w ++ [OpenFile (__http_file (self w));
                          LogError ("Unable to create template file with "
                                    ++ __http_file (self w) ++ " [" ++ exn_str e ++ "]");
                          Sleep 1]))) /\
    (forall (flask : FlaskApp) (host : string) (port : PyVal) (a : RunAttempt)
            (rest : list RunAttempt) (e : PyExn),
        stopped (self w) = false -> ending a = Some e ->
        let w1 := serve_all flask (served a) (snd (emit (FlaskRun host port) w)) in
        let w' := run_once flask host port a w in
        trace w' = trace w1 ++ [LogError ("Restarting HTTP server [" ++ exn_str e ++ "]");
                                Sleep 1; LogInfo "HTTP server shutdown"] /\
        run_http flask host port (a :: rest) w = run_http flask host port rest w') /\
    (forall (environ : Environ), fst (stop (PostAnswered environ) w) = Ok tt) /\
    (forall (e : PyExn), fst (stop (PostFails e) w) = Raise e) /\
    (forall (net : PostOutcome),
        let url := ("http://" ++ __host (self w) ++ ":" ++ py_str (__port (self w)))%string in
        __ready_to_stop (self (snd (stop net w))) = true /\
        exists evs,
          trace (snd (stop net w)) =
            trace w ++ LogInfo ("Shutting down " ++ url)
                    :: Post (url ++ "/__shutdown__") :: evs).
Proof.
  intros w. split; [|split; [|split; [|split]]].
  - intros flask ds e H. now apply make_page_failure.
  - intros flask host port a rest e S E w1 w'. split.
    + now apply run_once_failure.
    + now apply run_http_step.
  - intros environ. apply stop_answered.
  - intros e. pose proof (stop_fails e w) as H. cbn zeta in H. now rewrite H.
  - intros net url. split; [apply stop_arms|apply stop_posts].
Qed.

(** ** What a history can do to the object *)

Lemma image_setter_shape (img : Frame) (w : World) :
  let w' := snd (image_setter img w) in
  (self w' = self w /\ threads w' = threads w) \/
  (self w' = set_current_image (Some img) (self w) /\ threads w' = threads w /\
   __flask_launched (self w) = true) \/
  (self w' = set_current_image (Some img) (set_flask_launched true (self w)) /\
   threads w' = threads w ++ [mkThread (app_of img) (__host (self w)) (__port (self w))] /\
   __flask_launched (self w) = false /\ started (self w) = true /\
   enabled (self w) = true).
Proof.
  cbn zeta.
  destruct (enabled (self w)) eqn:E; [|rewrite (image_setter_off _ _ E); auto].
  destruct (started (self w)) eqn:S; [|rewrite (image_setter_not_started _ _ E S); auto].
  destruct (__flask_launched (self w)) eqn:L.
  - rewrite (image_setter_launched _ _ E S L). right; left. auto.
  - destruct (readable img) eqn:R.
    + rewrite (image_setter_first _ _ E S L R). right; right. cbn. auto.
    + destruct (image_setter_unreadable _ _ E S L R) as [e ->]. auto.
Qed.

Lemma stop_shape (net : PostOutcome) (w : World) :
  threads (snd (stop net w)) = threads w /\
  (self (snd (stop net w)) = set_ready_to_stop true (self w) \/
   self (snd (stop net w)) = set_stopped true (set_ready_to_stop true (self w)) /\
   threads w <> [] /\ net = PostAnswered (mkEnviron true)).
Proof.
  destruct net as [[hook]|e].
  - unfold stop, requests_post, bind, modify_self, get_self, emit.
    cbn [fst snd self threads trace].
    destruct (threads w) as [|t ths] eqn:T; [cbn; auto|].
    unfold serve. cbn [dispatch]. unfold shutdown, get_self, bind, ret, modify_self, emit.
    destruct hook; cbn; rewrite ?T; split; auto.
    right. repeat split. discriminate.
  - pose proof (stop_fails e w) as H. cbn zeta in H. rewrite H. cbn. auto.
Qed.

Lemma evolves_refl (s : ImageServer) : evolves s s.
Proof. unfold evolves. repeat split; auto. Qed.

Lemma evolves_trans (s1 s2 s3 : ImageServer) :
  evolves s1 s2 -> evolves s2 s3 -> evolves s1 s3.
Proof. unfold evolves. intuition congruence. Qed.

Lemma run_op_evolves (o : Op) (w : World) : evolves (self w) (self (run_op o w)).
Proof.
  destruct o as [|img| |net|r]; cbn [run_op].
  - destruct (start_self w) as [_ [->|[-> _]]]; unfold evolves; cbn; repeat split; auto.
  - destruct (image_setter_shape img w) as [[-> _]|[(-> & _)|(-> & _)]];
      unfold evolves; cbn; repeat split; auto.
  - destruct (image_self w) as [_ ->]. apply evolves_refl.
  - destruct (stop_shape net w) as [_ [->|[-> _]]]; unfold evolves; cbn; repeat split; auto.
  - destruct (threads w) as [|t ths]; [apply evolves_refl|].
    destruct (serve_self (flask_server t) r w) as [_ [->|[-> _]]];
      unfold evolves; cbn; repeat split; auto.
Qed.

Lemma run_ops_evolves (ops : list Op) (w : World) :
  evolves (self w) (self (run_ops ops w)).
Proof.
  revert w. induction ops as [|o ops IH]; intros w; cbn; [apply evolves_refl|].
  eapply evolves_trans; [apply run_op_evolves|apply IH].
Qed.

Lemma run_ops_enabled (ops : list Op) (w : World) :
  enabled (self (run_ops ops w)) = enabled (self w).
Proof.
  destruct (run_ops_evolves ops w) as (_ & H & _). unfold enabled. now rewrite H.
Qed.

(** X1. Whatever is called on an object, in any order, none of its four
    flags ever goes back from true to false: a started server stays
    started, a launched one launched, an armed one armed and a stopped
    one stopped. *)
Theorem X1_flags_never_reset :
  forall (ops : list Op) (w : World),
    let s := self w in
    let s' := self (run_ops ops w) in
    (started s = true -> started s' = true) /\
    (__flask_launched s = true -> __flask_launched s' = true) /\
    (__ready_to_stop s = true -> __ready_to_stop s' = true) /\
    (stopped s = true -> stopped s' = true).
Proof.
  intros ops w. cbn zeta.
  destruct (run_ops_evolves ops w) as (_ & _ & _ & _ & _ & _ & H).
  exact H.
Qed.

(** X2. What [__init__] computed from its arguments never changes: after
    any history the camera name, the configuration string, the default
    delay, the template path and the parsed host and port are those of
    the start, and so is [enabled]. *)
Theorem X2_configuration_is_immutable :
  forall (ops : list Op) (w : World),
    let s := self w in
    let s' := self (run_ops ops w) in
    __camera_name s' = __camera_name s /\
    __http_host s' = __http_host s /\
    __http_delay_secs s' = __http_delay_secs s /\
    __http_file s' = __http_file s /\
    __host s' = __host s /\
    __port s' = __port s /\
    enabled s' = enabled s.
Proof.
  intros ops w. cbn zeta.
  destruct (run_ops_evolves ops w) as (H1 & H2 & H3 & H4 & H5 & H6 & _).
  repeat split; auto. apply run_ops_enabled.
Qed.

(** The invariant of the stop handshake, the stored frame and the
    listener's address. *)
Lemma handshake_run_op (o : Op) (w : World) :
  Inv w ->
  (stopped (self w) = true ->
   __ready_to_stop (self w) = true /\ __flask_launched (self w) = true) ->
  (stopped (self (run_op o w)) = true ->
   __ready_to_stop (self (run_op o w)) = true /\
   __flask_launched (self (run_op o w)) = true).
Proof.
  intros (_ & _ & I3 & _) H.
  assert (T : threads w <> [] -> __flask_launched (self w) = true).
  { destruct (__flask_launched (self w)); [auto|]. destruct (I3 eq_refl) as [_ ->].
    intros X; now destruct X. }
  destruct o as [|img| |net|r]; cbn [run_op].
  - destruct (start_self w) as [_ [->|[-> _]]]; cbn; auto.
  - destruct (image_setter_shape img w) as [[-> _]|[(-> & _)|(-> & _)]]; cbn; auto.
    intros X. destruct (H X) as [? ?]. auto.
  - destruct (image_self w) as [_ ->]. auto.
  - destruct (stop_shape net w) as [_ [->|(-> & N & _)]]; cbn.
    + intros X. destruct (H X) as [_ ?]. auto.
    + auto.
  - destruct (threads w) as [|t ths] eqn:Th; [auto|].
    assert (L : __flask_launched (self w) = true) by (apply T; discriminate).
    destruct (serve_self (flask_server t) r w) as [_ [->|[-> B]]]; cbn; auto.
    intros _. split; [|exact L].
    destruct r; cbn in B; try discriminate.
    apply negb_false_iff, andb_true_iff in B. tauto.
Qed.

Lemma handshake_run_ops (ops : list Op) (w : World) :
  Inv w ->
  (stopped (self w) = true ->
   __ready_to_stop (self w) = true /\ __flask_launched (self w) = true) ->
  (stopped (self (run_ops ops w)) = true ->
   __ready_to_stop (self (run_ops ops w)) = true /\
   __flask_launched (self (run_ops ops w)) = true).
Proof.
  revert w. induction ops as [|o ops IH]; intros w I H; cbn; [exact H|].
  apply IH; [apply Inv_run_op, I|apply handshake_run_op; assumption].
Qed.

(** X3. In every history of an object since [__init__], [stopped] is set
    only on an object that was armed by [stop()] and whose listener was
    launched: no request can stop a server on which [stop()] was never
    called, and nothing can stop one that has no listener. *)
Theorem X3_stopped_only_after_armed_and_launched :
  forall (http_file camera_name http_host : string) (delay : PyVal) (verbose : bool)
         (ops : list Op),
    let s := self (run_ops ops (__init__ http_file camera_name http_host delay verbose)) in
    stopped s = true ->
    __ready_to_stop s = true /\ __flask_launched s = true.
Proof.
  intros http_file camera_name http_host delay verbose ops. cbn zeta.
  apply handshake_run_ops; [apply Inv_init|]. cbn. discriminate.
Qed.

(** X4. An object built with the empty configuration string is inert:
    after any history it is not started, not launched and not stopped, it
    holds no frame and has no thread, and [snapshot()] returns the empty
    sequence. *)
Theorem X4_disabled_object_is_inert :
  forall (http_file camera_name : string) (delay : PyVal) (verbose : bool)
         (ops : list Op),
    let w := run_ops ops (__init__ http_file camera_name "" delay verbose) in
    enabled (self w) = false /\
    started (self w) = false /\
    __flask_launched (self w) = false /\
    stopped (self w) = false /\
    __current_image (self w) = None /\
    threads w = [] /\
    image w = (Ok [], w).
Proof.
  intros http_file camera_name delay verbose ops w.
  pose proof (Inv_run_ops ops _ (Inv_init http_file camera_name "" delay verbose))
    as (I1 & I2 & I3 & _). fold w in I1, I2, I3.
  pose proof (run_ops_enabled ops (__init__ http_file camera_name "" delay verbose)) as E.
  fold w in E. change (enabled (self w) = false) in E.
  assert (S : started (self w) = false).
  { destruct (started (self w)); [|reflexivity]. rewrite (I1 eq_refl) in E. discriminate. }
  assert (L : __flask_launched (self w) = false).
  { destruct (__flask_launched (self w)); [|reflexivity]. rewrite (I2 eq_refl) in S.
    discriminate. }
  destruct (I3 L) as [C T].
  assert (St : stopped (self w) = false).
  { destruct (stopped (self w)) eqn:X; [|reflexivity].
    assert (__ready_to_stop (self w) = true /\ __flask_launched (self w) = true) as [_ L'].
    { subst w. apply handshake_run_ops; [apply Inv_init|cbn; discriminate|exact X]. }
    congruence. }
  repeat split; auto. now apply image_empty.
Qed.

(** ** Starting, publishing and the views: edge cases *)

Lemma start_fresh (w : World) :
  enabled (self w) = true -> __flask_launched (self w) = false ->
  started (self w) = false ->
  start w =
    (Ok tt,
     mkWorld (set_started true (self w)) (threads w)
       (trace w ++ [LogInfo ("Using template file " ++ __http_file (self w));
                    LogInfo ("Starting HTTP server on http://" ++ __host (self w) ++ ":"
                             ++ py_str (__port (self w)) ++ "/")])).
Proof.
  intros E L S. unfold start, get_self, bind, ret, emit, modify_self.
  rewrite E, L, S. cbn. now rewrite <- app_assoc.
Qed.

Lemma start_again (w : World) :
  enabled (self w) = true -> __flask_launched (self w) = false ->
  started (self w) = true ->
  start w =
    (Ok tt, mkWorld (self w) (threads w)
                    (trace w ++ [LogError "ImageServer.start() already called"])).
Proof.
  intros E L S. unfold start, get_self, bind, ret, emit, modify_self.
  now rewrite E, L, S.
Qed.

(** X5. On an enabled object that is not launched, [start()] leaves the
    object started, and calling [start()] again returns normally, logs
    that it was already called and changes nothing else: neither the
    object nor the threads. *)
Theorem X5_second_start_is_logged_noop :
  forall (w : World),
    enabled (self w) = true ->
    __flask_launched (self w) = false ->
    let w1 := snd (start w) in
    fst (start w) = Ok tt /\
    started (self w1) = true /\
    start w1 = (Ok tt, mkWorld (self w1) (threads w1)
                         (trace w1 ++ [LogError "ImageServer.start() already called"])).
Proof.
  intros w E L. cbn zeta. destruct (started (self w)) eqn:S.
  - rewrite (start_again w E L S). cbn [fst snd].
    split; [reflexivity|]. split; [exact S|]. apply start_again; assumption.
  - rewrite (start_fresh w E L S). cbn [fst snd].
    split; [reflexivity|]. split; [reflexivity|]. apply start_again; [exact E|exact L|reflexivity].
Qed.

(** X6. Before the listener is launched, publishing a frame whose shape
    has fewer than two entries raises [ValueError] out of the setter, and
    nothing has happened: the frame is not stored, no thread is started,
    nothing is logged, so the next publish is again a first publish. *)
Theorem X6_unreadable_first_frame_raises :
  forall (img : Frame) (w : World),
    enabled (self w) = true ->
    started (self w) = true ->
    __flask_launched (self w) = false ->
    readable img = false ->
    image_setter img w =
      (Raise (ValueError (match shape img with
                          | [] => "not enough values to unpack (expected 2, got 0)"
                          | _ => "not enough values to unpack (expected 2, got 1)"
                          end)), w).
Proof.
  intros img w E S L R. unfold image_setter, get_self, bind. rewrite E, S, L. cbn.
  unfold readable in R. unfold unpack_shape, raise.
  destruct (shape img) as [|h [|wd l]]; cbn in *; try reflexivity. discriminate.
Qed.

(** X7. A view raises in two cases only: the raw-image view when the
    codec raises on the stored frame, and a viewer-page view when [float]
    refuses a delay parameter that is not empty; it then raises that very
    exception and has not touched the object. *)
Theorem X7_views_raise_only_codec_or_float :
  forall (flask : FlaskApp) (r : Request) (w : World) (e : PyExn),
    fst (dispatch flask r w) = Raise e ->
    self (snd (dispatch flask r w)) = self w /\
    ((r = GET_image_jpg /\
      exists img, __current_image (self w) = Some img /\ encode_image img = Raise e) \/
     (exists c d, (r = GET_image (Some (String c d)) \/ r = GET_image_path (String c d)) /\
                  py_float (String c d) = Raise e)).
Proof.
  intros flask r w e. destruct r as [|delay|delay| |environ]; cbn [dispatch].
  - unfold index, get_self, bind, ret. cbn. discriminate.
  - unfold image_option. rewrite get_page_unfold.
    destruct delay as [[|c d]|]; cbn [effective_delay]; unfold ret, bind, lift.
    + unfold make_page, try_except, bind, emit, lift, ret.
      destruct (open_read _); cbn; discriminate.
    + destruct (py_float (String c d)) eqn:F.
      * unfold make_page, try_except, bind, emit, lift, ret.
        destruct (open_read _); cbn; discriminate.
      * cbn. intros H; injection H as <-. split; [reflexivity|].
        right. exists c, d. auto.
    + unfold make_page, try_except, bind, emit, lift, ret.
      destruct (open_read _); cbn; discriminate.
  - unfold image_path. rewrite get_page_unfold.
    destruct delay as [|c d]; cbn [effective_delay]; unfold ret, bind, lift.
    + unfold make_page, try_except, bind, emit, lift, ret.
      destruct (open_read _); cbn; discriminate.
    + destruct (py_float (String c d)) eqn:F.
      * unfold make_page, try_except, bind, emit, lift, ret.
        destruct (open_read _); cbn; discriminate.
      * cbn. intros H; injection H as <-. split; [reflexivity|].
        right. exists c, d. auto.
  - unfold image_jpg, image, get_self, bind, ret, emit, lift.
    destruct (__current_image (self w)) as [img|] eqn:C; cbn; [|discriminate].
    destruct (encode_image img) eqn:En; cbn; [discriminate|].
    intros H; injection H as <-. split; [reflexivity|]. left. split; [reflexivity|].
    exists img. auto.
  - unfold shutdown, get_self, bind, ret, modify_self, emit.
    destruct (__ready_to_stop (self w)); cbn; [|discriminate].
    destruct (werkzeug_server_shutdown environ); cbn; discriminate.
Qed.

(** X8. Serving a request never touches the threads, and the only thing
    it can change of the object is [stopped]: it sets it exactly when the
    request is a POST to the shutdown path that finds the object armed
    and the shutdown function in its environ.  Every GET leaves the
    object as it was. *)
Theorem X8_requests_only_set_stopped :
  forall (flask : FlaskApp) (r : Request) (w : World),
    threads (serve flask r w) = threads w /\
    self (serve flask r w) =
      (if harmless (self w) r then self w else set_stopped true (self w)).
Proof.
  intros flask r w. split; [apply serve_self|].
  destruct (harmless (self w) r) eqn:H; [now apply serve_harmless|].
  destruct r as [| | | |environ]; cbn in H; try discriminate.
  apply negb_false_iff, andb_true_iff in H as [A K].
  unfold serve. cbn [dispatch]. unfold shutdown, get_self, bind, ret, modify_self, emit.
  rewrite A, K. reflexivity.
Qed.

(** ** The serve loop and the stop handshake: more *)

(** X9. When a call of the listener returns without an exception while
    [stopped] is still false (it served nothing that could set it), the
    loop does not exit: it logs the shutdown line, without error line and
    without sleeping, and runs the listener again. *)
Theorem X9_clean_return_restarts_while_not_stopped :
  forall (flask : FlaskApp) (host : string) (port : PyVal) (a : RunAttempt)
         (rest : list RunAttempt) (w : World),
    stopped (self w) = false ->
    ending a = None ->
    forallb (harmless (self w)) (served a) = true ->
    let w1 := serve_all flask (served a) (snd (emit (FlaskRun host port) w)) in
    let w' := run_once flask host port a w in
    trace w' = trace w1 ++ [LogInfo "HTTP server shutdown"] /\
    stopped (self w') = false /\
    run_http flask host port (a :: rest) w = run_http flask host port rest w' /\
    exists evs, trace (snd (run_http flask host port rest w'))
                = trace w' ++ FlaskRun host port :: evs.
Proof.
  intros flask host port a rest w S E H w1 w'.
  assert (S' : stopped (self w') = false).
  { subst w'. now rewrite (run_once_harmless flask host port a w H). }
  split; [now apply run_once_return|]. split; [exact S'|].
  split; [now apply run_http_step|now apply run_http_runs_first].
Qed.

Lemma count_runs_app (l1 l2 : list Event) :
  count_runs (l1 ++ l2) = (count_runs l1 + count_runs l2)%nat.
Proof. unfold count_runs. now rewrite filter_app, length_app. Qed.

(** No view runs the listener. *)
Lemma serve_no_run (flask : FlaskApp) (r : Request) (w : World) :
  exists evs, trace (serve flask r w) = trace w ++ evs /\ count_runs evs = O.
Proof.
  unfold serve; destruct r; cbn [dispatch]; run_m;
    first [ now (exists []; rewrite app_nil_r)
          | cbn; rewrite <- ?app_assoc; eexists; split; reflexivity ].
Qed.

Lemma serve_all_no_run (flask : FlaskApp) (rs : list Request) (w : World) :
  exists evs, trace (serve_all flask rs w) = trace w ++ evs /\ count_runs evs = O.
Proof.
  revert w. induction rs as [|r rs IH]; intros w; cbn.
  - exists []. now rewrite app_nil_r.
  - destruct (serve_no_run flask r w) as (e1 & H1 & C1).
    destruct (IH (serve flask r w)) as (e2 & H2 & C2). unfold serve_all in H2.
    exists (e1 ++ e2). rewrite H2, H1, app_assoc, count_runs_app, C1, C2. now split.
Qed.

Lemma run_once_one_run (flask : FlaskApp) (host : string) (port : PyVal)
  (a : RunAttempt) (w : World) :
  exists evs, trace (run_once flask host port a w) = trace w ++ evs /\
              count_runs evs = 1%nat.
Proof.
  unfold run_once.
  destruct (serve_all_no_run flask (served a) (snd (emit (FlaskRun host port) w)))
    as (e1 & H1 & C1).
  cbn in H1. destruct (ending a) as [e|]; cbn; rewrite H1, <- !app_assoc; cbn;
    eexists; (split; [reflexivity|]);
    unfold count_runs in *; cbn [List.filter is_run List.length];
    rewrite ?filter_app, ?length_app, C1; reflexivity.
Qed.

Lemma run_http_counts (flask : FlaskApp) (host : string) (port : PyVal)
  (attempts : list RunAttempt) (w : World) :
  stopped (self w) = false ->
  forallb (fun a => forallb (harmless (self w)) (served a)) attempts = true ->
  exists evs, trace (snd (run_http flask host port attempts w)) = trace w ++ evs /\
              count_runs evs = S (List.length attempts).
Proof.
  revert w. induction attempts as [|a rest IH]; intros w S H.
  - cbn. rewrite S. cbn. eexists; split; reflexivity.
  - cbn [forallb] in H. apply andb_true_iff in H as [Ha Hrest].
    rewrite (run_http_step _ _ _ _ _ _ S).
    pose proof (run_once_harmless flask host port a w Ha) as E.
    destruct (run_once_one_run flask host port a w) as (e1 & H1 & C1).
    destruct (IH (run_once flask host port a w)) as (e2 & H2 & C2); rewrite ?E; auto.
    exists (e1 ++ e2). rewrite H2, H1, app_assoc, count_runs_app, C1, C2. now split.
Qed.

(** X10. While nothing sets [stopped], the listener is run once more
    than calls have come to an end: after n calls that ended, by failure
    or by return, the loop has asked the listener to run n+1 times and
    is inside the last of them. *)
Theorem X10_listener_run_once_per_turn :
  forall (flask : FlaskApp) (host : string) (port : PyVal)
         (attempts : list RunAttempt) (w : World),
    stopped (self w) = false ->
    forallb (fun a => forallb (harmless (self w)) (served a)) attempts = true ->
    let w' := snd (run_http flask host port attempts w) in
    fst (run_http flask host port attempts w) = Serving /\
    count_runs (new_events w w') = S (List.length attempts).
Proof.
  intros flask host port attempts w S H w'.
  split; [now apply run_http_keeps_serving|].
  destruct (run_http_counts flask host port attempts w S H) as (evs & T & C).
  subst w'. now rewrite (new_events_app _ _ _ T).
Qed.

(** X11. The handshake with a listener: when a thread of the object
    exists and the POST of [stop()] is answered with the shutdown
    function in the environ, [stop()] returns normally having armed and
    stopped the object; it logged, posted and called the shutdown
    function, in that order, and the serve loop exits at its next test,
    whatever calls would still come. *)
Theorem X11_stop_with_listener_stops :
  forall (w : World),
    threads w <> [] ->
    let url := ("http://" ++ __host (self w) ++ ":" ++ py_str (__port (self w)))%string in
    let w' := mkWorld (set_stopped true (set_ready_to_stop true (self w))) (threads w)
                (trace w ++ [LogInfo ("Shutting down " ++ url);
                             Post (url ++ "/__shutdown__"); ShutdownFunc]) in
    stop (PostAnswered (mkEnviron true)) w = (Ok tt, w') /\
    forall (flask : FlaskApp) (host : string) (port : PyVal) (attempts : list RunAttempt),
      run_http flask host port attempts w' = (Exited, w').
Proof.
  intros w T url w'. split.
  - unfold stop, requests_post, bind, modify_self, get_self, emit.
    cbn [fst snd self threads trace set_ready_to_stop __host __port].
    destruct (threads w) as [|t ths] eqn:Th; [now destruct T|].
    unfold serve. cbn [dispatch]. unfold shutdown, get_self, bind, ret, modify_self, emit.
    cbn. subst w' url. rewrite ?Th, <- !app_assoc. reflexivity.
  - intros flask host port attempts. now apply run_http_stopped.
Qed.

(** X12. Without a listener thread [stop()] can only arm: whatever the
    POST meets, the object afterwards differs from before in
    [__ready_to_stop] alone, so [stopped] is as it was. *)
Theorem X12_stop_without_listener_only_arms :
  forall (net : PostOutcome) (w : World),
    threads w = [] ->
    self (snd (stop net w)) = set_ready_to_stop true (self w) /\
    stopped (self (snd (stop net w))) = stopped (self w) /\
    threads (snd (stop net w)) = [].
Proof.
  intros net w T. destruct (stop_shape net w) as [Th [S|(_ & N & _)]];
    [|now destruct N].
  rewrite S, Th. now repeat split.
Qed.

(** ** The stored frame and the listener's address *)

Lemma store_run_op (o : Op) (w : World) :
  (__flask_launched (self w) = true -> exists img, __current_image (self w) = Some img) ->
  Forall (addressed (self w)) (threads w) ->
  (__flask_launched (self (run_op o w)) = true ->
   exists img, __current_image (self (run_op o w)) = Some img) /\
  Forall (addressed (self (run_op o w))) (threads (run_op o w)).
Proof.
  intros H A. destruct o as [|img| |net|r]; cbn [run_op].
  - destruct (start_self w) as [-> [->|[-> _]]]; cbn; auto.
  - destruct (image_setter_shape img w) as [[-> ->]|[(-> & -> & _)|(-> & -> & _)]];
      cbn; auto.
    + split; [eauto|exact A].
    + split; [eauto|]. apply Forall_app. split; [exact A|].
      constructor; [now split|constructor].
  - destruct (image_self w) as [-> ->]. auto.
  - destruct (stop_shape net w) as [-> [->|(-> & _)]]; cbn; auto.
  - destruct (threads w) as [|t ths] eqn:Th; [rewrite Th; auto|].
    destruct (serve_self (flask_server t) r w) as [-> [->|[-> _]]]; rewrite Th; cbn; auto.
Qed.

Lemma store_run_ops (ops : list Op) (w : World) :
  (__flask_launched (self w) = true -> exists img, __current_image (self w) = Some img) ->
  Forall (addressed (self w)) (threads w) ->
  (__flask_launched (self (run_ops ops w)) = true ->
   exists img, __current_image (self (run_ops ops w)) = Some img) /\
  Forall (addressed (self (run_ops ops w))) (threads (run_ops ops w)).
Proof.
  revert w. induction ops as [|o ops IH]; intros w H A; cbn; [now split|].
  destruct (store_run_op o w H A) as [H' A']. now apply IH.
Qed.

Lemma init_parses (http_file camera_name http_host : string) (delay : PyVal)
  (verbose : bool) :
  let s := self (__init__ http_file camera_name http_host delay verbose) in
  __host s = before_first ":" http_host /\
  __port s = (if (count_char ":" http_host =? 1)%nat
              then PyStr (after_first ":" http_host)
              else HTTP_PORT_DEFAULT).
Proof.
  cbn. split; [apply split_hd|].
  destruct (count_char ":" http_host =? 1)%nat eqn:E.
  - apply Nat.eqb_eq in E. now rewrite (split_one_sep _ _ E).
  - apply Nat.eqb_neq in E.
    pose proof (split_length ":" http_host) as L.
    destruct (split ":" http_host) as [|a [|b [|c l]]]; simpl in L; try reflexivity.
    exfalso; apply E; lia.
Qed.

(** X16. In every history since [__init__], a launched object holds a
    frame: the raw-image view, which only a launched listener serves,
    therefore never takes the no-frame branch of the getter; it asks the
    codec for the stored frame, once, and answers with the codec's bytes
    under [image/jpeg] and the two no-cache headers, or raises what the
    codec raised. *)
Theorem X16_raw_image_of_launched_server :
  forall (http_file camera_name http_host : string) (delay : PyVal) (verbose : bool)
         (ops : list Op) (flask : FlaskApp),
    let w := run_ops ops (__init__ http_file camera_name http_host delay verbose) in
    __flask_launched (self w) = true ->
    exists img,
      __current_image (self w) = Some img /\
      dispatch flask GET_image_jpg w =
        (match encode img with
         | Ok body => Ok (ImageResponse body "image/jpeg"
                            [("Cache-Control", "no-cache, no-store, must-revalidate");
                             ("Pragma", "no-cache")])
         | Raise e => Raise e
         end,
         mkWorld (self w) (threads w) (trace w ++ [Encode img])).
Proof.
  intros http_file camera_name http_host delay verbose ops flask w L.
  destruct (store_run_ops ops (__init__ http_file camera_name http_host delay verbose))
    as [H _]; [cbn; discriminate|constructor|].
  fold w in H. destruct (H L) as [img C]. exists img. split; [exact C|].
  cbn [dispatch]. unfold image_jpg, bind. rewrite (image_stored _ _ C).
  now destruct (encode img).
Qed.

(** X17. In every history since [__init__], a listener thread was
    started on the address parsed from the configuration string: its
    host is the text before the first [':'] and its port is the text
    after it when the string holds exactly one [':'], the default port
    otherwise. *)
Theorem X17_listener_binds_parsed_address :
  forall (http_file camera_name http_host : string) (delay : PyVal) (verbose : bool)
         (ops : list Op) (t : ServeThread),
    In t (threads (run_ops ops (__init__ http_file camera_name http_host delay verbose))) ->
    thread_host t = before_first ":" http_host /\
    thread_port t = (if (count_char ":" http_host =? 1)%nat
                     then PyStr (after_first ":" http_host)
                     else HTTP_PORT_DEFAULT).
Proof.
  intros http_file camera_name http_host delay verbose ops t Hin.
  destruct (store_run_ops ops (__init__ http_file camera_name http_host delay verbose))
    as [_ A]; [cbn; discriminate|constructor|].
  rewrite Forall_forall in A. destruct (A t Hin) as [Hh Hp].
  destruct (run_ops_evolves ops (__init__ http_file camera_name http_host delay verbose))
    as (_ & _ & _ & _ & E5 & E6 & _).
  destruct (init_parses http_file camera_name http_host delay verbose) as [P1 P2].
  split; congruence.
Qed.

(** ** The configuration string, taken apart and put together *)

Lemma before_first_no_sep (c : ascii) (s : string) :
  count_char c (before_first c s) = O.
Proof.
  induction s as [|a rest IH]; cbn; [reflexivity|].
  destruct (Ascii.eqb a c) eqn:E; cbn; [reflexivity|]. now rewrite E.
Qed.

Lemma before_first_all (c : ascii) (s : string) :
  count_char c s = O -> before_first c s = s.
Proof.
  induction s as [|a rest IH]; cbn; [reflexivity|].
  destruct (Ascii.eqb a c); [discriminate|]. intros H. now rewrite (IH H).
Qed.

Lemma cut_at_first (c : ascii) (s : string) :
  count_char c s <> O ->
  s = (before_first c s ++ String c (after_first c s))%string /\
  count_char c (after_first c s) = pred (count_char c s).
Proof.
  induction s as [|a rest IH]; cbn; [intros H; now destruct H|].
  destruct (Ascii.eqb a c) eqn:E; cbn.
  - apply Ascii.eqb_eq in E. subst a. intros _. now split.
  - intros H. destruct (IH H) as [I1 I2]. split; [now rewrite <- I1|exact I2].
Qed.

(** X13. The host that [__init__] keeps holds no [':'].  When the
    configuration string holds exactly one [':'], the port is a string
    without [':'] and host, [':'] and port put together give the
    configuration string back; when it holds none, the host is the whole
    string. *)
Theorem X13_host_and_port_reassemble :
  forall (http_file camera_name http_host : string) (delay : PyVal) (verbose : bool),
    let s := self (__init__ http_file camera_name http_host delay verbose) in
    count_char ":" (__host s) = O /\
    (count_char ":" http_host = O -> __host s = http_host) /\
    (count_char ":" http_host = 1%nat ->
     exists p, __port s = PyStr p /\ count_char ":" p = O /\
               http_host = (__host s ++ ":" ++ p)%string).
Proof.
  intros http_file camera_name http_host delay verbose s.
  destruct (init_parses http_file camera_name http_host delay verbose) as [P1 P2].
  fold s in P1, P2. rewrite P1. split; [apply before_first_no_sep|]. split.
  - apply before_first_all.
  - intros H. rewrite H in P2. cbn in P2. exists (after_first ":" http_host).
    destruct (cut_at_first ":" http_host) as [C1 C2]; [rewrite H; discriminate|].
    rewrite H in C2. repeat split; auto.
Qed.

(** ** The access-log filter *)

Lemma startswith_spec (p s : string) :
  startswith p s = true <-> exists post, s = (p ++ post)%string.
Proof.
  revert s. induction p as [|a p IH]; intros s; cbn.
  - split; [intros _; now exists s|reflexivity].
  - destruct s as [|b s]; [split; [discriminate|intros [post H]; discriminate]|].
    rewrite andb_true_iff, Ascii.eqb_eq, IH. split.
    + intros [-> [post ->]]. now exists post.
    + intros [post H]. injection H as -> ->. split; [reflexivity|now exists post].
Qed.

Lemma contains_spec (p s : string) :
  contains p s = true <-> exists pre post, s = (pre ++ p ++ post)%string.
Proof.
  split.
  - induction s as [|a rest IH]; cbn.
    + intros H. apply startswith_spec in H as [post H]. now exists EmptyString, post.
    + rewrite orb_true_iff. intros [H|H].
      * apply startswith_spec in H as [post H]. now exists EmptyString, post.
      * destruct (IH H) as (pre & post & ->). now exists (String a pre), post.
  - intros (pre & post & ->). induction pre as [|a pre IH]; cbn.
    + assert (S : startswith p (p ++ post) = true) by (apply startswith_spec; now exists post).
      destruct (p ++ post)%string; cbn; [exact S|]. cbn in S. now rewrite S.
    + rewrite IH. apply orb_true_r.
Qed.

(** X14. The filter that [__init__] installs on the access log, unless
    [http_verbose] is set, holds back exactly the records whose message
    contains ["GET "] followed by the raw-image path, wherever in the
    message; every other record passes. *)
Theorem X14_filter_drops_raw_image_lines :
  forall (http_file camera_name http_host : string) (delay : PyVal) (msg : string),
    trace (__init__ http_file camera_name http_host delay false) = [AddFilter _image_fname] /\
    trace (__init__ http_file camera_name http_host delay true) = [] /\
    (FlaskFilter_filter (FlaskFilter__init__ _image_fname) msg = false <->
     exists pre post, msg = (pre ++ "GET /image.jpg" ++ post)%string).
Proof.
  intros http_file camera_name http_host delay msg.
  split; [reflexivity|]. split; [reflexivity|].
  unfold FlaskFilter_filter, FlaskFilter__init__. cbn [__fname].
  rewrite negb_false_iff. apply contains_spec.
Qed.

(** ** Rendering *)

Lemma replace_absent (c0 : ascii) (old' new s : string) :
  contains (String c0 old') s = false -> replace (String c0 old') new s = s.
Proof.
  unfold replace. induction s as [|c rest IH]; [reflexivity|].
  cbn [contains]. rewrite orb_false_iff. intros [H1 H2].
  cbn [replace_from]. rewrite H1. now rewrite (IH H2).
Qed.

(** X15. A template that holds none of the six placeholders is served as
    it is: the page is the template, whatever the camera name, the delay
    and the dimensions. *)
Theorem X15_template_without_placeholders_is_verbatim :
  forall (flask : FlaskApp) (name : string) (delay_secs : PyVal) (html : string),
    contains "_TITLE_" html = false ->
    contains "_DELAY_SECS_" html = false ->
    contains "_NAME_" html = false ->
    contains "_WIDTH_" html = false ->
    contains "_HEIGHT_" html = false ->
    contains "_IMAGE_FNAME_" html = false ->
    render flask name delay_secs html = html.
Proof.
  intros flask name delay_secs html H1 H2 H3 H4 H5 H6. unfold render.
  rewrite (replace_absent _ _ _ _ H1), (replace_absent _ _ _ _ H2),
    (replace_absent _ _ _ _ H3), (replace_absent _ _ _ _ H4),
    (replace_absent _ _ _ _ H5). apply (replace_absent _ _ _ _ H6).
Qed.

End ImageServerClass.

(** ** The theorems at concrete inputs

    The object of the examples is built for host ["127.0.0.1:8080"], with
    default port 8080, template [viewer.html] and default delay 1. *)

Example split_host_port : split ":" "127.0.0.1:8080" = ["127.0.0.1"; "8080"].
Proof. reflexivity. Qed.

Example split_three : split ":" "a:b:c" = ["a"; "b"; "c"].
Proof. reflexivity. Qed.

Example split_empty : split ":" "" = [""].
Proof. reflexivity. Qed.

Example init_three_pieces :
  let s := self (__init__ (PyInt 8080) "viewer.html" "cam" "a:b:c" (PyInt 1) false) in
  __host s = "a" /\ __port s = PyInt 8080.
Proof. split; reflexivity. Qed.

Example replace_all_occurrences : replace "_X_" "42" "a_X_b_X__X_" = "a42b4242".
Proof. reflexivity. Qed.

Example replace_no_overlap : replace "aa" "b" "aaaaa" = "bba".
Proof. reflexivity. Qed.

(** Width and height in the page are those of the application; without
    a delay parameter the page carries the default delay. *)
Example page_with_default_delay :
  fst (get_page sample_float sample_str_float sample_open_read (mkApp 100 50)
         None sample_world)
  = Ok (Text "<title>cam camera</title><img src='/image.jpg' width=100 height=50> cam every 1 s").
Proof. vm_compute. reflexivity. Qed.

(** The scenario of the specification: built for ["127.0.0.1:8080"],
    started, one frame of 100 by 50 published; [GET /image.jpg] then
    answers with the codec's bytes for that frame and the no-cache headers. *)
Example image_jpg_after_first_publish :
  let w := run_ops sample_float sample_str_float sample_encode_image sample_open_read
             [OpStart; OpPublish frame_100x50]
             (__init__ (PyInt 8080) "viewer.html" "cam" "127.0.0.1:8080" (PyInt 1) false) in
  threads w = [mkThread (mkApp 100 50) "127.0.0.1" (PyStr "8080")] /\
  fst (dispatch sample_float sample_str_float sample_encode_image sample_open_read
         (mkApp 100 50) GET_image_jpg w)
  = Ok (ImageResponse [Byte.xff; Byte.xff; Byte.xff] "image/jpeg"
          [("Cache-Control", "no-cache, no-store, must-revalidate");
           ("Pragma", "no-cache")]).
Proof. split; reflexivity. Qed.

(** The stop handshake: a POST to the shutdown path before [stop()] is
    turned away; [stop()] answered by the listener sets [stopped], and
    the serve loop then exits. *)
Example stop_handshake :
  let w := run_ops sample_float sample_str_float sample_encode_image sample_open_read
             [OpStart; OpPublish frame_100x50;
              OpRequest (POST_shutdown (mkEnviron true))]
             (__init__ (PyInt 8080) "viewer.html" "cam" "127.0.0.1:8080" (PyInt 1) false) in
  let w' := run_op sample_float sample_str_float sample_encode_image sample_open_read
              (OpStop (PostAnswered (mkEnviron true))) w in
  stopped (self w) = false /\ stopped (self w') = true /\
  fst (run_http sample_float sample_str_float sample_encode_image sample_open_read
         (mkApp 100 50) "127.0.0.1" (PyStr "8080") [] w') = Exited.
Proof. repeat split. Qed.

Lemma C1_witness :
  let w := snd (start sample_str_float
                  (__init__ (PyInt 8080) "viewer.html" "cam" "127.0.0.1:8080" (PyInt 1) false)) in
  let w2 := run_ops sample_float sample_str_float sample_encode_image sample_open_read
              [OpSnapshot; OpStop (PostAnswered (mkEnviron true)); OpSnapshot]
              (snd (image_setter sample_str_float frame_100x50 w)) in
  (enabled (self w) = true /\ started (self w) = true /\ readable frame_100x50 = true) /\
  fst (image sample_encode_image w2) = Ok [Byte.xff; Byte.xff; Byte.xff] /\
  new_events w2 (snd (image sample_encode_image w2)) = [Encode frame_100x50].
Proof.
  intros w w2. split; [repeat split|].
  pose proof (C1_snapshot_is_encode_of_published_frame
                sample_float sample_str_float sample_encode_image sample_open_read
                w frame_100x50
                [OpSnapshot; OpStop (PostAnswered (mkEnviron true)); OpSnapshot]
                eq_refl eq_refl eq_refl) as H.
  cbv zeta in H.
  change (__flask_launched (self w) || readable frame_100x50) with true in H.
  cbv iota in H.
  destruct H as (_ & H1 & H2 & _). split; [exact H1|exact H2].
Defined.

Lemma C2_witness :
  let w := run_ops sample_float sample_str_float sample_encode_image sample_open_read
             [OpStart; OpSnapshot; OpStop (PostFails connection_refused);
              OpRequest GET_image_jpg]
             (__init__ (PyInt 8080) "viewer.html" "cam" "127.0.0.1:8080" (PyInt 1) false) in
  image sample_encode_image w = (Ok [], w).
Proof.
  apply (C2_snapshot_empty_when_never_published (PyInt 8080)
           sample_float sample_str_float sample_encode_image sample_open_read).
  reflexivity.
Defined.

Lemma C4_witness :
  let w := run_ops sample_float sample_str_float sample_encode_image sample_open_read
             [OpSnapshot; OpStop (PostFails connection_refused)]
             (__init__ (PyInt 8080) "viewer.html" "cam" "127.0.0.1:8080" (PyInt 1) false) in
  let w' := snd (image_setter sample_str_float frame_100x50 w) in
  started (self w) = false /\
  self w' = self w /\ threads w' = [] /\ __flask_launched (self w') = false /\
  image sample_encode_image w' = (Ok [], w').
Proof.
  intros w w'. split; [reflexivity|].
  destruct (C4_publish_is_noop_when_off_or_not_started (PyInt 8080)
              sample_float sample_str_float sample_encode_image sample_open_read
              "viewer.html" "cam" "127.0.0.1:8080" (PyInt 1) false
              [OpSnapshot; OpStop (PostFails connection_refused)] frame_100x50
              (or_intror eq_refl)) as (_ & H1 & _ & H2 & H3 & _ & H4).
  repeat split; assumption.
Defined.

Lemma C5_witness :
  let w := run_ops sample_float sample_str_float sample_encode_image sample_open_read
             [OpStart]
             (__init__ (PyInt 8080) "viewer.html" "cam" "127.0.0.1:8080" (PyInt 1) false) in
  let w' := run_ops sample_float sample_str_float sample_encode_image sample_open_read
              (map OpPublish [frame_flat; frame_100x50; frame_640x480]) w in
  (started (self w) = true /\ __flask_launched (self w) = false) /\
  threads w' = [mkThread (mkApp 100 50) "127.0.0.1" (PyStr "8080")] /\
  __flask_launched (self w') = true.
Proof.
  intros w w'. split; [split; reflexivity|].
  pose proof (C5_bootstrap_at_most_once (PyInt 8080)
                sample_float sample_str_float sample_encode_image sample_open_read
                "viewer.html" "cam" "127.0.0.1:8080" (PyInt 1) false
                [OpStart] [frame_flat; frame_100x50; frame_640x480]
                eq_refl eq_refl) as H.
  cbn [first_readable find readable frame_flat frame_100x50 shape List.length Nat.leb] in H.
  destruct H as (H1 & H2 & _). split; [exact H1|exact H2].
Defined.

Lemma C7_witness :
  dispatch sample_float sample_str_float sample_encode_image sample_open_read
    (mkApp 100 50) (GET_image_path "2.5") lost_template_world
  = (Ok NoneResult,
     mkWorld (self lost_template_world) []
       [OpenFile "missing.html";
        LogError "Unable to create template file with missing.html [[Errno 2] No such file or directory: 'missing.html']";
        Sleep 1]).
Proof.
  apply (C7_template_failure_is_logged_and_answered
           sample_float sample_str_float sample_encode_image sample_open_read
           (mkApp 100 50) (GET_image_path "2.5") (Some "2.5") lost_template_world
           (FileNotFoundError "[Errno 2] No such file or directory: 'missing.html'")).
  - reflexivity.
  - reflexivity.
  - vm_compute. left. reflexivity.
Defined.

Lemma C8_witness :
  fst (run_http sample_float sample_str_float sample_encode_image sample_open_read
         (mkApp 100 50) "127.0.0.1" (PyStr "8080")
         [mkAttempt [GET_root; POST_shutdown (mkEnviron true)] (Some address_in_use);
          mkAttempt [GET_image_jpg] (Some address_in_use)]
         sample_world)
  = Serving.
Proof.
  apply (C8_serve_loop_restarts_until_stopped
           sample_float sample_str_float sample_encode_image sample_open_read
           (mkApp 100 50) "127.0.0.1" (PyStr "8080") sample_world eq_refl).
  reflexivity.
Defined.

Lemma C3_witness :
  fst (get_page sample_float sample_str_float sample_open_read (mkApp 100 50)
         (Some "2.5") sample_world)
  = Ok (Text "<title>cam camera</title><img src='/image.jpg' width=100 height=50> cam every 2.5 s").
Proof.
  exact (proj1 (C3_delay_override_default_or_error
                  sample_float sample_str_float sample_open_read
                  (mkApp 100 50) sample_world)
           "2"%char ".5" 2.5%float
           "<title>_TITLE_</title><img src='_IMAGE_FNAME_' width=_WIDTH_ height=_HEIGHT_> _NAME_ every _DELAY_SECS_ s"
           eq_refl eq_refl).
Defined.

Lemma C6_witness :
  shutdown (mkEnviron true) armed_world
  = (Ok (Text "Shutting down..."),
     mkWorld (set_stopped true (self armed_world)) [] [ShutdownFunc]).
Proof.
  exact (proj1 (proj2 (C6_shutdown_view (mkEnviron true) armed_world)) eq_refl eq_refl).
Defined.

Lemma C9_witness :
  fst (stop sample_float sample_str_float sample_encode_image sample_open_read
         (PostAnswered (mkEnviron true)) sample_world) = Ok tt.
Proof.
  exact (proj1 (proj2 (proj2 (C9_failures_handled_except_in_stop
                                sample_float sample_str_float sample_encode_image
                                sample_open_read sample_world)))
           (mkEnviron true)).
Defined.

(** Inputs at which sentences of the specification fail on the code. *)

(** C1 as stated fails: on a server that is enabled and started, the
    first publish of a frame whose shape has one entry raises and stores
    nothing, so the snapshot that follows is empty and not the codec's
    bytes for that frame. *)
Lemma C1_flat_first_frame_is_not_stored :
  let w := snd (start sample_str_float
                  (__init__ (PyInt 8080) "viewer.html" "cam" "127.0.0.1:8080" (PyInt 1) false)) in
  let w1 := snd (image_setter sample_str_float frame_flat w) in
  enabled (self w) = true /\ started (self w) = true /\
  fst (image_setter sample_str_float frame_flat w)
    = Raise (ValueError "not enough values to unpack (expected 2, got 1)") /\
  fst (image sample_encode_image w1) = Ok [] /\
  encode sample_encode_image frame_flat = Ok [Byte.xff].
Proof. repeat split. Qed.

(** C3 as stated fails: a delay that is present and not a number is not
    answered with the default; the view raises and renders nothing. *)
Lemma C3_unparseable_delay_raises :
  get_page sample_float sample_str_float sample_open_read (mkApp 100 50)
    (Some "abc") sample_world
  = (Raise (ValueError "could not convert string to float: 'abc'"), sample_world).
Proof. reflexivity. Qed.

(** C6 as stated fails: on an armed object, a shutdown request whose
    environ lacks the shutdown function is answered "Shutting down..."
    while [stopped] stays false and nothing is shut down. *)
Lemma C6_armed_without_shutdown_function :
  __ready_to_stop (self armed_world) = true /\
  shutdown (mkEnviron false) armed_world = (Ok (Text "Shutting down..."), armed_world) /\
  stopped (self armed_world) = false.
Proof. repeat split. Qed.

(** C9 as stated fails: with no listener to reach, [stop()] raises the
    [ConnectionError] of [requests.post] to its caller. *)
Lemma C9_stop_raises_when_unreachable :
  fst (stop sample_float sample_str_float sample_encode_image sample_open_read
         (PostFails connection_refused) sample_world)
  = Raise connection_refused.
Proof. reflexivity. Qed.

(** ** The further properties at concrete inputs *)

Lemma X3_witness :
  let s := self (run_ops sample_float sample_str_float sample_encode_image sample_open_read
                   [OpStart; OpPublish frame_100x50; OpStop (PostAnswered (mkEnviron true))]
                   (__init__ (PyInt 8080) "viewer.html" "cam" "127.0.0.1:8080" (PyInt 1) false)) in
  stopped s = true /\ __ready_to_stop s = true /\ __flask_launched s = true.
Proof.
  intros s. split; [reflexivity|].
  apply (X3_stopped_only_after_armed_and_launched (PyInt 8080)
           sample_float sample_str_float sample_encode_image sample_open_read
           "viewer.html" "cam" "127.0.0.1:8080" (PyInt 1) false
           [OpStart; OpPublish frame_100x50; OpStop (PostAnswered (mkEnviron true))]).
  reflexivity.
Defined.

Lemma X5_witness :
  let w1 := snd (start sample_str_float sample_world) in
  started (self w1) = true /\
  start sample_str_float w1 =
    (Ok tt, mkWorld (self w1) (threads w1)
              (trace w1 ++ [LogError "ImageServer.start() already called"])).
Proof.
  exact (proj2 (X5_second_start_is_logged_noop sample_str_float sample_world
                  eq_refl eq_refl)).
Defined.

Lemma X6_witness :
  let w := snd (start sample_str_float sample_world) in
  image_setter sample_str_float frame_flat w
  = (Raise (ValueError "not enough values to unpack (expected 2, got 1)"), w).
Proof.
  exact (X6_unreadable_first_frame_raises sample_str_float frame_flat
           (snd (start sample_str_float sample_world)) eq_refl eq_refl eq_refl eq_refl).
Defined.

Lemma X7_witness :
  self (snd (dispatch sample_float sample_str_float sample_encode_image sample_open_read
               (mkApp 100 50) (GET_image_path "abc") sample_world))
  = self sample_world.
Proof.
  exact (proj1 (X7_views_raise_only_codec_or_float
                  sample_float sample_str_float sample_encode_image sample_open_read
                  (mkApp 100 50) (GET_image_path "abc") sample_world
                  (ValueError "could not convert string to float: 'abc'") eq_refl)).
Defined.

Lemma X9_witness :
  let a := mkAttempt [GET_root; GET_image_jpg] None in
  run_http sample_float sample_str_float sample_encode_image sample_open_read
    (mkApp 100 50) "127.0.0.1" (PyStr "8080") [a] sample_world
  = run_http sample_float sample_str_float sample_encode_image sample_open_read
      (mkApp 100 50) "127.0.0.1" (PyStr "8080") []
      (run_once sample_float sample_str_float sample_encode_image sample_open_read
         (mkApp 100 50) "127.0.0.1" (PyStr "8080") a sample_world).
Proof.
  exact (proj1 (proj2 (proj2 (X9_clean_return_restarts_while_not_stopped
                  sample_float sample_str_float sample_encode_image sample_open_read
                  (mkApp 100 50) "127.0.0.1" (PyStr "8080")
                  (mkAttempt [GET_root; GET_image_jpg] None) [] sample_world
                  eq_refl eq_refl eq_refl)))).
Defined.

Lemma X10_witness :
  count_runs
    (new_events sample_world
       (snd (run_http sample_float sample_str_float sample_encode_image sample_open_read
               (mkApp 100 50) "127.0.0.1" (PyStr "8080")
               [mkAttempt [GET_root] None; mkAttempt [] (Some address_in_use)]
               sample_world)))
  = 3%nat.
Proof.
  exact (proj2 (X10_listener_run_once_per_turn
                  sample_float sample_str_float sample_encode_image sample_open_read
                  (mkApp 100 50) "127.0.0.1" (PyStr "8080")
                  [mkAttempt [GET_root] None; mkAttempt [] (Some address_in_use)]
                  sample_world eq_refl eq_refl)).
Defined.

Lemma X11_witness :
  let w := run_ops sample_float sample_str_float sample_encode_image sample_open_read
             [OpStart; OpPublish frame_100x50]
             (__init__ (PyInt 8080) "viewer.html" "cam" "127.0.0.1:8080" (PyInt 1) false) in
  let w' := snd (stop sample_float sample_str_float sample_encode_image sample_open_read
                   (PostAnswered (mkEnviron true)) w) in
  run_http sample_float sample_str_float sample_encode_image sample_open_read
    (mkApp 100 50) "127.0.0.1" (PyStr "8080")
    [mkAttempt [] (Some address_in_use)] w' = (Exited, w').
Proof.
  intros w w'.
  assert (T : threads w <> []) by (vm_compute; discriminate).
  destruct (X11_stop_with_listener_stops
              sample_float sample_str_float sample_encode_image sample_open_read w T)
    as [E R].
  subst w'. rewrite E. apply R.
Defined.

Lemma X12_witness :
  self (snd (stop sample_float sample_str_float sample_encode_image sample_open_read
               (PostFails connection_refused) sample_world))
  = set_ready_to_stop true (self sample_world).
Proof.
  exact (proj1 (X12_stop_without_listener_only_arms
                  sample_float sample_str_float sample_encode_image sample_open_read
                  (PostFails connection_refused) sample_world eq_refl)).
Defined.

Lemma X15_witness :
  render sample_str_float (mkApp 100 50) "cam" (PyInt 1) "<html>still picture</html>"
  = "<html>still picture</html>".
Proof.
  exact (X15_template_without_placeholders_is_verbatim sample_str_float
           (mkApp 100 50) "cam" (PyInt 1) "<html>still picture</html>"
           eq_refl eq_refl eq_refl eq_refl eq_refl eq_refl).
Defined.

Lemma X16_witness :
  let w := run_ops sample_float sample_str_float sample_encode_image sample_open_read
             [OpStart; OpPublish frame_100x50; OpPublish frame_640x480]
             (__init__ (PyInt 8080) "viewer.html" "cam" "127.0.0.1:8080" (PyInt 1) false) in
  exists img,
    __current_image (self w) = Some img /\
    dispatch sample_float sample_str_float sample_encode_image sample_open_read
      (mkApp 100 50) GET_image_jpg w =
      (match encode sample_encode_image img with
       | Ok body => Ok (ImageResponse body "image/jpeg"
                          [("Cache-Control", "no-cache, no-store, must-revalidate");
                           ("Pragma", "no-cache")])
       | Raise e => Raise e
       end,
       mkWorld (self w) (threads w) (trace w ++ [Encode img])).
Proof.
  exact (X16_raw_image_of_launched_server (PyInt 8080)
           sample_float sample_str_float sample_encode_image sample_open_read
           "viewer.html" "cam" "127.0.0.1:8080" (PyInt 1) false
           [OpStart; OpPublish frame_100x50; OpPublish frame_640x480]
           (mkApp 100 50) eq_refl).
Defined.

Lemma X17_witness :
  let t := mkThread (mkApp 100 50) "127.0.0.1" (PyStr "8080") in
  thread_host t = before_first ":" "127.0.0.1:8080" /\
  thread_port t = PyStr (after_first ":" "127.0.0.1:8080").
Proof.
  apply (X17_listener_binds_parsed_address (PyInt 8080)
           sample_float sample_str_float sample_encode_image sample_open_read
           "viewer.html" "cam" "127.0.0.1:8080" (PyInt 1) false
           [OpStart; OpPublish frame_100x50; OpSnapshot]).
  vm_compute. left. reflexivity.
Defined.

(** An access-log message for the raw image is held back; the one for
    the viewer page passes. *)
Example filter_on_access_lines :
  FlaskFilter_filter (FlaskFilter__init__ _image_fname)
    "127.0.0.1 - - [03/Nov/2026 10:00:00] GET /image.jpg HTTP/1.1 200 -" = false /\
  FlaskFilter_filter (FlaskFilter__init__ _image_fname)
    "127.0.0.1 - - [03/Nov/2026 10:00:00] GET /image?delay=1 HTTP/1.1 200 -" = true.
Proof. split; reflexivity. Qed.
